(** * Air-quality dashboard: the cleaning and aggregation pipeline

    A shallow embedding of [visualization.py].  The script is a straight-line
    pandas program; the embedding keeps its order of statements and models
    the pandas operations it calls on a small data-frame type:

    - a float is a rational or NaN ([fval], exact arithmetic instead of
      binary floating point);
    - a data frame is a list of column labels with their dtype and a list of
      rows, every row a finite map from column label to cell;
    - a statement that can raise returns a [result].

    Chart drawing and the HTML template are not modelled, except for the
    condition under which the station section is put into the report. *)

From Stdlib Require Import Ascii String QArith Qround.
From Stdlib Require Import Lqa Sorting.Sorted Sorting.Permutation.
From stdpp Require Import gmap strings list fin_maps.

Open Scope string_scope.
Open Scope list_scope.

(* ------------------------------------------------------------------ *)
(** ** Values *)

(** A float64: [None] is NaN. *)
Definition fval := option Q.

(** Python's [<=] and [<] on floats: every comparison with NaN is false. *)
Definition fle (a b : fval) : bool :=
  match a, b with
  | Some x, Some y => Qle_bool x y
  | _, _ => false
  end.

Definition Qlt_bool (x y : Q) : bool := negb (Qle_bool y x).

Definition flt (a b : fval) : bool :=
  match a, b with
  | Some x, Some y => Qlt_bool x y
  | _, _ => false
  end.

(** The fields of a parsed timestamp that the script reads. *)
Record timestamp := { ts_year : Z; ts_month : Z; ts_hour : Z }.

(** One cell of a data frame. *)
Inductive cell :=
| Str (s : string)
| Num (q : Q)
| NaN
| Int (z : Z)
| Stamp (t : timestamp)
| NaT
| PyNone.

Inductive dtype := DObject | DFloat | DInt | DDatetime.

Inductive exn :=
| KeyError (label : string)
| AttributeError (msg : string)
| TypeError (msg : string)
| ValueError (msg : string).

Inductive result (A : Type) :=
| Ok (a : A)
| Err (e : exn).
Arguments Ok {A} a.
Arguments Err {A} e.

#[global] Instance result_ret : MRet result := fun A a => Ok a.

#[global] Instance result_bind : MBind result := fun A B k m =>
  match m with
  | Ok a => k a
  | Err e => Err e
  end.

(** [isna]: NaN, NaT and None are missing. *)
Definition isna (c : cell) : bool :=
  match c with
  | NaN | NaT | PyNone => true
  | _ => false
  end.

(** The float held by a cell of a numeric column. *)
Definition to_float (c : cell) : fval :=
  match c with
  | Num q => Some q
  | Int z => Some (inject_Z z)
  | _ => None
  end.

Definition of_float (v : fval) : cell :=
  match v with
  | Some q => Num q
  | None => NaN
  end.

(* ------------------------------------------------------------------ *)
(** ** Data frames *)

Record frame := {
  columns : list (string * dtype);
  rows : list (gmap string cell)
}.

(** [pd.DataFrame()] *)
Definition empty_frame : frame := {| columns := []; rows := [] |}.

(** [df.empty]: one of the axes has length 0. *)
Definition df_empty (df : frame) : bool :=
  match columns df, rows df with
  | [], _ | _, [] => true
  | _, _ => false
  end.

Definition col_dtype (df : frame) (c : string) : option dtype :=
  snd <$> List.find (fun p => String.eqb (fst p) c) (columns df).

(** [c in df.columns] *)
Definition has_column (df : frame) (c : string) : bool :=
  match col_dtype df c with Some _ => true | None => false end.

(** A cell of a row; a label the row does not hold reads as NaN. *)
Definition cell_at (c : string) (r : gmap string cell) : cell :=
  default NaN (r !! c).

(** [df[c]]: the column as a Series, KeyError when the label is absent. *)
Definition getitem (df : frame) (c : string) : result (list cell) :=
  if has_column df c then Ok (List.map (cell_at c) (rows df)) else Err (KeyError c).

(** [df.get(c)]: as [df[c]], but None when the label is absent. *)
Definition df_get (df : frame) (c : string) : option (list cell) :=
  if has_column df c then Some (List.map (cell_at c) (rows df)) else None.

(** Replacing or appending a column label. *)
Fixpoint set_dtype (c : string) (t : dtype) (cols : list (string * dtype))
  : list (string * dtype) :=
  match cols with
  | [] => [(c, t)]
  | (c', t') :: rest =>
      if String.eqb c' c then (c, t) :: rest else (c', t') :: set_dtype c t rest
  end.

(** Writing a Series that shares the frame's index, cell by cell. *)
Fixpoint zip_set (c : string) (rs : list (gmap string cell)) (vs : list cell)
  : list (gmap string cell) :=
  match rs, vs with
  | r :: rs', v :: vs' => <[c := v]> r :: zip_set c rs' vs'
  | _, _ => []
  end.

(** [df[c] = series] *)
Definition setitem (df : frame) (c : string) (t : dtype) (vs : list cell) : frame :=
  {| columns := set_dtype c t (columns df); rows := zip_set c (rows df) vs |}.

(** [df[c] = None]: an object column holding None in every row. *)
Definition setitem_none (df : frame) (c : string) : frame :=
  {| columns := set_dtype c DObject (columns df);
     rows := List.map (fun r => <[c := PyNone]> r) (rows df) |}.

(** [df[mask]]: the rows at which the boolean Series is true. *)
Fixpoint select (mask : list bool) (rs : list (gmap string cell))
  : list (gmap string cell) :=
  match mask, rs with
  | b :: mask', r :: rs' => if b then r :: select mask' rs' else select mask' rs'
  | _, _ => []
  end.

Definition df_select (df : frame) (mask : list bool) : frame :=
  {| columns := columns df; rows := select mask (rows df) |}.

(** [df.dropna(subset=[c])]: the rows whose cell at [c] is not missing. *)
Definition dropna (df : frame) (c : string) : result frame :=
  if has_column df c
  then Ok {| columns := columns df;
             rows := List.filter (fun r => negb (isna (cell_at c r))) (rows df) |}
  else Err (KeyError c).

(* ------------------------------------------------------------------ *)
(** ** Text: [str.strip] and [str.title]

    Characters are bytes, and these functions are Python's on ASCII text
    only: a byte outside ASCII is neither cased nor whitespace here, where
    Python follows the Unicode tables.  Every property of text below is one
    of ASCII text and says so ([is_ascii], [ascii_cities]). *)

Definition code (a : ascii) : N := N_of_ascii a.

Definition is_space (a : ascii) : bool :=
  ((9 <=? code a) && (code a <=? 13) || (28 <=? code a) && (code a <=? 32))%N.

Definition is_upper (a : ascii) : bool := ((65 <=? code a) && (code a <=? 90))%N.
Definition is_lower (a : ascii) : bool := ((97 <=? code a) && (code a <=? 122))%N.
Definition is_cased (a : ascii) : bool := is_upper a || is_lower a.

Definition to_upper (a : ascii) : ascii :=
  if is_lower a then ascii_of_N (code a - 32) else a.
Definition to_lower (a : ascii) : ascii :=
  if is_upper a then ascii_of_N (code a + 32) else a.

Fixpoint lstrip (s : string) : string :=
  match s with
  | String a s' => if is_space a then lstrip s' else s
  | EmptyString => EmptyString
  end.

Fixpoint rstrip (s : string) : string :=
  match s with
  | String a s' =>
      match rstrip s' with
      | EmptyString => if is_space a then EmptyString else String a EmptyString
      | t => String a t
      end
  | EmptyString => EmptyString
  end.

Definition strip (s : string) : string := rstrip (lstrip s).

(** [str.title]: a cased character is upper-cased when the character before
    it is not cased, and lower-cased otherwise. *)
Fixpoint title_from (previous_is_cased : bool) (s : string) : string :=
  match s with
  | String a s' =>
      String (if previous_is_cased then to_lower a else to_upper a)
             (title_from (is_cased a) s')
  | EmptyString => EmptyString
  end.

Definition title (s : string) : string := title_from false s.

(* ------------------------------------------------------------------ *)
(** ** Numbers: mean and quantile of a Series *)

(** The values of a Series that are not NaN. *)
Definition valid (vs : list fval) : list Q := omap id vs.

Definition Qsum (xs : list Q) : Q := List.fold_right Qplus 0%Q xs.

(** [Series.mean()]: NaN is skipped; NaN when nothing is left. *)
Definition mean (vs : list fval) : fval :=
  match valid vs with
  | [] => None
  | xs => Some (Qsum xs / inject_Z (Z.of_nat (length xs)))%Q
  end.

Fixpoint insert_sorted (x : Q) (xs : list Q) : list Q :=
  match xs with
  | [] => [x]
  | y :: ys => if Qle_bool x y then x :: xs else y :: insert_sorted x ys
  end.

Definition sort (xs : list Q) : list Q := List.fold_right insert_sorted [] xs.

(** [Series.quantile(q)], linear interpolation: NaN is skipped, the values
    are sorted, and the result lies at position [(n-1)*q] between the two
    neighbouring values. *)
Definition quantile (q : Q) (vs : list fval) : fval :=
  match sort (valid vs) with
  | [] => None
  | (x0 :: _) as a =>
      let n := Z.of_nat (length a) in
      let h := (inject_Z (n - 1) * q)%Q in
      let lo := Z.to_nat (Qfloor h) in
      let hi := Nat.min (S lo) (length a - 1) in
      let gamma := (h - inject_Z (Qfloor h))%Q in
      let a_lo := nth lo a x0 in
      let a_hi := nth hi a x0 in
      Some (a_lo + (a_hi - a_lo) * gamma)%Q
  end.

(** [Series.fillna(m)] *)
Definition fillna (m : fval) (v : fval) : fval :=
  match v with
  | Some _ => v
  | None => m
  end.

(* ------------------------------------------------------------------ *)
(** ** The functions of the script *)

Definition season (x : Z) : string :=
  if existsb (Z.eqb x) [12; 1; 2]%Z then "Winter"
  else if existsb (Z.eqb x) [3; 4; 5]%Z then "Summer"
  else if existsb (Z.eqb x) [6; 7; 8; 9]%Z then "Monsoon"
  else "Autumn".

Definition pollutants : list string :=
  ["PM2.5"; "PM10"; "NO2"; "NH3"; "SO2"; "CO"; "O3"; "Benzene"; "Toluene"; "Xylene"].

Definition get_aqi_category (pm25 : fval) : string :=
  if fle pm25 (Some 30%Q) then "Good"
  else if fle pm25 (Some 60%Q) then "Satisfactory"
  else if fle pm25 (Some 90%Q) then "Moderate"
  else if fle pm25 (Some 120%Q) then "Poor"
  else if fle pm25 (Some 250%Q) then "Very Poor"
  else "Severe".

Definition category_order : list string :=
  ["Good"; "Satisfactory"; "Moderate"; "Poor"; "Very Poor"; "Severe"].

(** [Series.astype(str)] on one cell; [py_str] is Python's [str] on the
    values that are not text already. *)
Definition astype_str (py_str : cell -> string) (c : cell) : string :=
  match c with
  | Str s => s
  | NaN => "nan"
  | NaT => "NaT"
  | PyNone => "None"
  | _ => py_str c
  end.

(** Folding a statement that can raise over a list, as a [for] loop does. *)
Fixpoint for_each {A B} (body : A -> B -> result A) (a : A) (l : list B) : result A :=
  match l with
  | [] => Ok a
  | b :: l' => a' ← body a b; for_each body a' l'
  end.

(** What [print] wrote. *)
Inductive message := FileNotFound (file : string).

Section Pipeline.

(** [parse_datetime] is the parser behind [pd.to_datetime] for one value
    that is not missing: [None] when the value is not a date. *)
Variable parse_datetime : cell -> option timestamp.
Variable py_str : cell -> string.

(** The files on disk: what [pd.read_csv] returns for a file that exists.
    A file that exists is taken to be one that [pd.read_csv] can read; its
    raising on an unreadable file is outside this model. *)
Variable disk : string -> option frame.

(** Lines 19-24. *)
Definition safe_read (file : string) : frame * list message :=
  match disk file with
  | Some df => (df, [])
  | None => (empty_frame, [FileNotFound file])
  end.

(** Lines 36-38, the body of the loop for one frame. *)
Definition normalize_city (df : frame) : result frame :=
  if negb (df_empty df) && has_column df "City" then
    s ← getitem df "City";
    Ok (setitem df "City" DObject
          (List.map (fun c => Str (title (strip (astype_str py_str c)))) s))
  else Ok df.

(** [pd.to_datetime(arg, errors='coerce')]: None for None; otherwise a
    datetime Series, NaT where the value is missing or does not parse. *)
Definition to_datetime_cell (c : cell) : cell :=
  if isna c then NaT
  else match parse_datetime c with
       | Some t => Stamp t
       | None => NaT
       end.

Definition to_datetime (arg : option (list cell)) : option (list cell) :=
  option_map (List.map to_datetime_cell) arg.

(** [df['Datetime'] = pd.to_datetime(df.get('Datetime'), errors='coerce')] *)
Definition assign_datetime (df : frame) : frame :=
  match to_datetime (df_get df "Datetime") with
  | Some s => setitem df "Datetime" DDatetime s
  | None => setitem_none df "Datetime"
  end.

(** [df[c].dt.<field>]: the accessor exists on datetime columns only; the
    field of NaT is NaN. *)
Definition dt (df : frame) (c : string) (field : timestamp -> Z) : result (list cell) :=
  s ← getitem df c;
  match col_dtype df c with
  | Some DDatetime =>
      Ok (List.map (fun x => match x with Stamp t => Int (field t) | _ => NaN end) s)
  | _ => Err (AttributeError "Can only use .dt accessor with datetimelike values")
  end.

(** An integer Series, or a float one when it holds NaN. *)
Definition int_dtype (s : list cell) : dtype :=
  if existsb isna s then DFloat else DInt.

(** The lambda of lines 45-47 on a cell of the Month column. *)
Definition season_cell (c : cell) : cell :=
  match c with
  | Int x => Str (season x)
  | _ => Str "Autumn"
  end.

(** Lines 40-48. *)
Definition derive_calendar (city_day : frame) : result frame :=
  let city_day := assign_datetime city_day in
  city_day ← dropna city_day "Datetime";
  year ← dt city_day "Datetime" ts_year;
  let city_day := setitem city_day "Year" (int_dtype year) year in
  month ← dt city_day "Datetime" ts_month;
  let city_day := setitem city_day "Month" (int_dtype month) month in
  month ← getitem city_day "Month";
  Ok (setitem city_day "Season" DObject (List.map season_cell month)).

(** Lines 50-51. *)
Definition derive_hour (city_hour : frame) : result frame :=
  let city_hour := assign_datetime city_hour in
  hour ← dt city_hour "Datetime" ts_hour;
  Ok (setitem city_hour "Hour" (int_dtype hour) hour).

Definition is_numeric (t : dtype) : bool :=
  match t with
  | DFloat | DInt => true
  | _ => false
  end.

(** [df[c]] for a column that is read as numbers: its floats. *)
Definition numeric_column (df : frame) (c : string) : result (list fval) :=
  s ← getitem df c;
  match col_dtype df c with
  | Some t => if is_numeric t then Ok (List.map to_float s)
              else Err (TypeError "could not convert to numeric")
  | None => Err (KeyError c)
  end.

(** [df[cols].mean()]: the mean of every listed column. *)
Fixpoint column_means (df : frame) (cols : list string) : result (list (string * fval)) :=
  match cols with
  | [] => Ok []
  | c :: cols' =>
      s ← numeric_column df c;
      ms ← column_means df cols';
      Ok ((c, mean s) :: ms)
  end.

(** A missing cell takes the value it is filled with. *)
Definition fill_cell (m : fval) (c : cell) : cell :=
  match to_float c with
  | Some _ => c
  | None => of_float m
  end.

Definition fill_row (means : list (string * fval)) (r : gmap string cell)
  : gmap string cell :=
  List.fold_left (fun r '(c, m) => <[c := fill_cell m (cell_at c r)]> r) means r.

(** [df[cols]] with a list of labels: KeyError when a label is absent (the
    first absent label stands for the list pandas reports). *)
Fixpoint require_columns (df : frame) (cols : list string) : result unit :=
  match cols with
  | [] => Ok tt
  | c :: cols' =>
      if has_column df c then require_columns df cols' else Err (KeyError c)
  end.

(** Line 54: the selection [city_day[pollutants]] comes first, then the
    means, then the filling. *)
Definition impute (city_day : frame) : result frame :=
  _ ← require_columns city_day pollutants;
  means ← column_means city_day pollutants;
  Ok {| columns := columns city_day; rows := List.map (fill_row means) (rows city_day) |}.

(** Lines 57-58, the body of the loop. *)
Definition trim_column (city_day : frame) (col : string) : result frame :=
  if has_column city_day col then
    s ← numeric_column city_day col;
    let threshold := quantile (99 # 100) s in
    Ok (df_select city_day (List.map (fun v => flt v threshold) s))
  else Ok city_day.

(** Lines 56-58. *)
Definition trim_outliers (city_day : frame) : result frame :=
  for_each trim_column city_day pollutants.

(** Line 69. *)
Definition categorize (city_day : frame) : result frame :=
  s ← numeric_column city_day "PM2.5";
  Ok (setitem city_day "AQI_Category" DObject
        (List.map (fun v => Str (get_aqi_category v)) s)).

(** The Cleaner: lines 54-58. *)
Definition clean (city_day : frame) : result frame :=
  city_day ← impute city_day;
  trim_outliers city_day.

(* ------------------------------------------------------------------ *)
(** ** Aggregates *)

(** [Series.value_counts()] of a column of text: how often every label
    occurs; missing cells are not counted.  The Series is indexed by label,
    and [reindex] reads it by label only. *)
Definition value_counts (s : list cell) : gmap string nat :=
  List.fold_right
    (fun c m => match c with
                | Str v => <[v := S (default 0%nat (m !! v))]> m
                | _ => m
                end) ∅ s.

(** [counts.reindex(order, fill_value=0)] *)
Definition reindex (order : list string) (m : gmap string nat) : list (string * nat) :=
  List.map (fun k => (k, default 0%nat (m !! k))) order.

(** Lines 115-118. *)
Definition aqi_counts (city_day : frame) : result (list (string * nat)) :=
  s ← getitem city_day "AQI_Category";
  Ok (reindex category_order (value_counts s)).

(** [df[df[c] == label]] *)
Definition cell_is (label : string) (c : cell) : bool :=
  match c with
  | Str v => String.eqb v label
  | _ => false
  end.

Definition where_equal (df : frame) (c label : string) : result frame :=
  s ← getitem df c;
  Ok (df_select df (List.map (cell_is label) s)).

(** The group an integer key cell belongs to; a missing key is in none
    ([groupby] drops it). *)
Definition hour_key (c : cell) : option Z :=
  match c with
  | Int z => Some z
  | _ => None
  end.

Fixpoint insert_key (x : Z) (l : list Z) : list Z :=
  match l with
  | [] => [x]
  | y :: l' =>
      if (x <? y)%Z then x :: l
      else if (x =? y)%Z then l
      else y :: insert_key x l'
  end.

(** The group keys, ascending and without repetition. *)
Definition group_keys (ks : list (option Z)) : list Z :=
  List.fold_right insert_key [] (omap id ks).

(** The values of the rows of one group. *)
Fixpoint group_values (h : Z) (ks : list (option Z)) (vs : list fval) : list fval :=
  match ks, vs with
  | k :: ks', v :: vs' =>
      match k with
      | Some z => if (z =? h)%Z then v :: group_values h ks' vs'
                  else group_values h ks' vs'
      | None => group_values h ks' vs'
      end
  | _, _ => []
  end.

(** [df.groupby(key)[val].mean()] for an integer key. *)
Definition groupby_mean (df : frame) (key val : string) : result (list (Z * fval)) :=
  k ← getitem df key;
  v ← numeric_column df val;
  let ks := List.map hour_key k in
  Ok (List.map (fun h => (h, mean (group_values h ks v))) (group_keys ks)).

(** Lines 147-148. *)
Definition hourly_avg (city_hour : frame) : result (list (Z * fval)) :=
  delhi_hour ← where_equal city_hour "City" "Delhi";
  groupby_mean delhi_hour "Hour" "PM2.5".

(** The group of a text key cell.  Station identifiers are text; a missing
    one is in no group.  Keys that are not text are outside this model, and
    the properties of the station table assume text ([text_stations]). *)
Definition station_key (c : cell) : option string :=
  match c with
  | Str v => Some v
  | _ => None
  end.

Fixpoint station_values (k : string) (ks : list (option string)) (vs : list fval)
  : list fval :=
  match ks, vs with
  | k' :: ks', v :: vs' =>
      match k' with
      | Some z => if String.eqb z k then v :: station_values k ks' vs'
                  else station_values k ks' vs'
      | None => station_values k ks' vs'
      end
  | _, _ => []
  end.

(** [sort_values(ascending=False)]: pandas does not fix the order of ties. *)
Variable sort_values_descending : list (string * fval) -> list (string * fval).

(** Lines 187-188. *)
Definition station_avg (station_day : frame) : result (list (string * fval)) :=
  delhi_stations ← where_equal station_day "City" "Delhi";
  k ← getitem delhi_stations "Station";
  v ← numeric_column delhi_stations "PM2.5";
  let ks := List.map station_key k in
  let means := List.map (fun s => (s, mean (station_values s ks v)))
                 (remove_dups (omap id ks)) in
  Ok (firstn 12 (sort_values_descending means)).

(* ------------------------------------------------------------------ *)
(** ** The run *)

Record datasets := {
  city_day : frame;
  city_hour : frame;
  station_day : frame
}.

(** Lines 29-31. *)
Definition load : datasets * list message :=
  let '(d, w1) := safe_read "city_day.csv" in
  let '(h, w2) := safe_read "city_hour.csv" in
  let '(s, w3) := safe_read "station_day.csv" in
  ({| city_day := d; city_hour := h; station_day := s |}, w1 ++ w2 ++ w3).

(** Lines 36-69. *)
Definition preprocess (ds : datasets) : result datasets :=
  d ← normalize_city (city_day ds);
  h ← normalize_city (city_hour ds);
  s ← normalize_city (station_day ds);
  d ← derive_calendar d;
  h ← derive_hour h;
  d ← clean d;
  d ← categorize d;
  Ok {| city_day := d; city_hour := h; station_day := s |}.

(** What the presentation layer receives of the aggregates modelled here;
    [sections] lists the cards of the HTML report. *)
Record dashboard := {
  category_distribution : list (string * nat);
  hourly_pattern : list (Z * fval);
  stations : option (list (string * fval));
  sections : list string
}.

(** Lines 186-201: the station chart exists only for a station frame that
    is not empty. *)
Definition station_chart (station_day : frame) : result (option (list (string * fval))) :=
  if negb (df_empty station_day) then
    a ← station_avg station_day; Ok (Some a)
  else Ok None.

(** Lines 548-575: the station card is there when the chart is. *)
Definition report_sections (st : option (list (string * fval))) : list string :=
  ["trend"; "pie"; "seasonal"; "comparison"]
    ++ match st with Some _ => ["stations"] | None => [] end ++ ["heatmap"].

(** The statements of the script that compute on the data, in source
    order.  Statements not modelled (the statistics of lines 85-88, the
    other group-bys, the charts) can only add further ways to raise. *)
Definition run : list message * result dashboard :=
  let '(ds, printed) := load in
  (printed,
   ds ← preprocess ds;
   counts ← aqi_counts (city_day ds);
   hourly ← hourly_avg (city_hour ds);
   st ← station_chart (station_day ds);
   Ok {| category_distribution := counts;
         hourly_pattern := hourly;
         stations := st;
         sections := report_sections st |}).

End Pipeline.

(* ------------------------------------------------------------------ *)
(** ** Vocabulary of the specification *)

(** The position of a label in a list of labels. *)
Fixpoint index_of (s : string) (l : list string) : nat :=
  match l with
  | [] => 0
  | x :: l' => if String.eqb x s then 0 else S (index_of s l')
  end.

(** The severity of an AQI category: its rank in the fixed order. *)
Definition severity (category : string) : nat := index_of category category_order.

(** How often a label occurs. *)
Definition count_label (k : string) (l : list string) : nat :=
  length (List.filter (String.eqb k) l).

(* ------------------------------------------------------------------ *)
(** ** Sample data *)

(** A row of a daily file: city, timestamp text and PM2.5. *)
Definition daily_row (city time : string) (pm25 : cell) : gmap string cell :=
  <["City" := Str city]> (<["Datetime" := Str time]> (<["PM2.5" := pm25]> ∅)).

(** Three readings of one city, the middle one missing. *)
Definition sample_daily : frame :=
  {| columns := [("City", DObject); ("Datetime", DObject); ("PM2.5", DFloat)];
     rows := [daily_row "Delhi " "2020-01-01" (Num 10);
              daily_row "Delhi " "2020-01-02" NaN;
              daily_row "Delhi " "2020-01-03" (Num 400)] |}.

(* ------------------------------------------------------------------ *)
(** ** Normalized text, in the words of the specification

    The predicates read bytes as ASCII characters, as the text functions
    do; they say what the words mean for ASCII text. *)

(** The text starts with a whitespace character. *)
Definition leading_space (s : string) : bool :=
  match s with
  | String a _ => is_space a
  | EmptyString => false
  end.

(** The text ends with a whitespace character. *)
Fixpoint trailing_space (s : string) : bool :=
  match s with
  | String a EmptyString => is_space a
  | String _ s' => trailing_space s'
  | EmptyString => false
  end.

(** Title case: an upper-case letter only where a word starts, a lower-case
    letter only inside a word. *)
Fixpoint titlecased_from (previous_is_cased : bool) (s : string) : bool :=
  match s with
  | String a s' =>
      (if is_upper a then negb previous_is_cased
       else if is_lower a then previous_is_cased
       else true)
      && titlecased_from (is_cased a) s'
  | EmptyString => true
  end.

Definition titlecased (s : string) : bool := titlecased_from false s.

Definition normalized (s : string) : bool :=
  negb (leading_space s) && negb (trailing_space s) && titlecased s.

(** The claim on text fields as the specification words it: in every record
    the city and the station identifier, where the record has one as text,
    are normalized. *)
Definition text_fields_normalized (df : frame) : Prop :=
  forall r c s,
    In r (rows df) -> In c ["City"; "Station"] -> r !! c = Some (Str s) ->
    normalized s = true.

(** A row of a station file. *)
Definition station_row (city station : string) (pm25 : cell) : gmap string cell :=
  <["City" := Str city]> (<["Station" := Str station]> (<["PM2.5" := pm25]> ∅)).

Definition sample_station : frame :=
  {| columns := [("City", DObject); ("Station", DObject); ("PM2.5", DFloat)];
     rows := [station_row " delhi" " anand vihar " (Num 120);
              station_row "DELHI  " "ITO" (Num 90)] |}.

(** [str] of a number or a timestamp, for running the samples: they hold
    text only, so the choice does not show. *)
Definition sample_str (c : cell) : string := "".

(** The frame without the rows whose timestamp is missing. *)
Definition parsed_rows (df : frame) : frame :=
  {| columns := columns df;
     rows := List.filter (fun r => negb (isna (cell_at "Datetime" r))) (rows df) |}.

(** A row of an hourly file. *)
Definition sample_hourly : frame :=
  {| columns := [("City", DObject); ("Datetime", DObject); ("PM2.5", DFloat)];
     rows := [daily_row "Delhi" "2020-01-01 07:00" (Num 80);
              daily_row "Delhi" "not a time" (Num 500);
              daily_row "Delhi" "2020-01-02 07:00" (Num 100)] |}.

(** A parser for running the samples: it knows three timestamps. *)
Definition sample_parse (c : cell) : option timestamp :=
  match c with
  | Str s =>
      if String.eqb (substring 0 8 s) "2020-01-" then
        Some {| ts_year := 2020; ts_month := 1;
                ts_hour := if String.eqb (substring 11 2 s) "07" then 7 else 0 |}
      else None
  | _ => None
  end.

(* ------------------------------------------------------------------ *)
(** ** The Cleaner, in the words of the specification *)

(** Every listed column is there and holds numbers. *)
Definition numeric_columns (df : frame) (cols : list string) : bool :=
  forallb (fun c => match col_dtype df c with
                    | Some t => is_numeric t
                    | None => false
                    end) cols.

(** The value of a row in a column, and the values of the whole column. *)
Definition reading (c : string) (r : gmap string cell) : fval := to_float (cell_at c r).

Definition column_values (c : string) (rs : list (gmap string cell)) : list fval :=
  List.map (reading c) rs.

(** The arithmetic mean of a list of numbers that is not empty. *)
Definition arithmetic_mean (xs : list Q) : Q :=
  (Qsum xs / inject_Z (Z.of_nat (length xs)))%Q.

(** The claim on imputation as the specification words it: after it no
    pollutant value of any row is missing. *)
Definition no_missing_pollutant (df : frame) : Prop :=
  forall r c, In r (rows df) -> In c pollutants -> reading c r <> None.

(** A row with one city and the same reading for all ten pollutants. *)
Definition uniform_row (city : string) (v : cell) : gmap string cell :=
  <["City" := Str city]>
    (List.fold_right (fun c r => <[c := v]> r) ∅ pollutants).

Definition pollutant_columns : list (string * dtype) :=
  ("City", DObject) :: List.map (fun c => (c, DFloat)) pollutants.

(** Three rows with readings 1, 2 and 3. *)
Definition sample_three : frame :=
  {| columns := pollutant_columns;
     rows := [uniform_row "Delhi" (Num 1); uniform_row "Delhi" (Num 2);
              uniform_row "Delhi" (Num 3)] |}.

(** One row. *)
Definition sample_one : frame :=
  {| columns := pollutant_columns; rows := [uniform_row "Delhi" (Num 5)] |}.

(** Xylene was never measured; PM2.5 is missing once. *)
Definition sample_unmeasured : frame :=
  {| columns := pollutant_columns;
     rows := [<["Xylene" := NaN]> (uniform_row "Delhi" (Num 10));
              <["Xylene" := NaN]> (<["PM2.5" := NaN]> (uniform_row "Delhi" (Num 20)));
              <["Xylene" := NaN]> (uniform_row "Delhi" (Num 400))] |}.

(** The 99th-percentile threshold of a column over the rows at hand. *)
Definition threshold (c : string) (rs : list (gmap string cell)) : fval :=
  quantile (99 # 100) (column_values c rs).

(** The reading of the row is strictly below the threshold. *)
Definition below_threshold (c : string) (rs : list (gmap string cell))
           (r : gmap string cell) : bool :=
  flt (reading c r) (threshold c rs).

(** The reading of the row exceeds the threshold. *)
Definition exceeds_threshold (c : string) (rs : list (gmap string cell))
           (r : gmap string cell) : bool :=
  flt (threshold c rs) (reading c r).

(** Trimming one column as the code does it: the rows strictly below the
    threshold stay. *)
Definition trim_rows (rs : list (gmap string cell)) (c : string)
  : list (gmap string cell) :=
  List.filter (below_threshold c rs) rs.

(** The same for a column that may be absent from the frame. *)
Definition trim_present (df : frame) (rs : list (gmap string cell)) (c : string)
  : list (gmap string cell) :=
  if has_column df c then trim_rows rs c else rs.

(** Trimming one column as the specification words it: the rows that
    exceed the threshold go. *)
Definition trim_exceeding (rs : list (gmap string cell)) (c : string)
  : list (gmap string cell) :=
  List.filter (fun r => negb (exceeds_threshold c rs r)) rs.

(** Every listed column that is there holds numbers. *)
Definition present_numeric (df : frame) (cols : list string) : bool :=
  forallb (fun c => match col_dtype df c with
                    | Some t => is_numeric t
                    | None => true
                    end) cols.

(** The reading of the row is the threshold itself, or is missing. *)
Definition at_threshold_or_missing (c : string) (rs : list (gmap string cell))
           (r : gmap string cell) : bool :=
  negb (below_threshold c rs r) && negb (exceeds_threshold c rs r).

(* ------------------------------------------------------------------ *)
(** ** Calendar features, row by row *)

(** What lines 40-48 make of one row: nothing when its timestamp is missing
    or does not parse; else the row with the parsed timestamp, its year, its
    month and the season of the month. *)
Definition calendar_row (parse : cell -> option timestamp) (r : gmap string cell)
  : option (gmap string cell) :=
  match to_datetime_cell parse (cell_at "Datetime" r) with
  | Stamp t =>
      Some (<["Season" := Str (season (ts_month t))]>
              (<["Month" := Int (ts_month t)]>
                 (<["Year" := Int (ts_year t)]>
                    (<["Datetime" := Stamp t]> r))))
  | _ => None
  end.

(** The message of the [.dt] accessor on a column that holds no datetimes. *)
Definition dt_message : string := "Can only use .dt accessor with datetimelike values".

(** A daily file whose timestamp column is called Date. *)
Definition sample_dated : frame :=
  {| columns := ("Date", DObject) :: pollutant_columns;
     rows := [<["Date" := Str "2020-01-01"]> (uniform_row "Delhi" (Num 10));
              <["Date" := Str "2020-01-02"]> (uniform_row "Delhi" (Num 20))] |}.

(** A disk that holds the daily file only. *)
Definition daily_only (file : string) : option frame :=
  if String.eqb file "city_day.csv" then Some sample_daily else None.

(** Sorting for running the samples: the order of arrival. *)
Definition sample_sort (l : list (string * fval)) : list (string * fval) := l.

(** The first of the listed labels that the frame does not have. *)
Definition first_missing (df : frame) (cols : list string) : option string :=
  List.find (fun c => negb (has_column df c)) cols.

(** [str.lower] on ASCII text. *)
Fixpoint lowercase (s : string) : string :=
  match s with
  | String a s' => String (to_lower a) (lowercase s')
  | EmptyString => EmptyString
  end.

(** A station frame without rows. *)
Definition sample_no_rows : frame :=
  {| columns := [("City", DObject); ("Station", DObject); ("PM2.5", DFloat)];
     rows := [] |}.

(** The rows of one city and one hour of the day. *)
Definition hour_rows (city : string) (h : Z) (rs : list (gmap string cell))
  : list (gmap string cell) :=
  List.filter (fun r => match hour_key (cell_at "Hour" r) with
                        | Some z => (z =? h)%Z
                        | None => false
                        end)
    (List.filter (fun r => cell_is city (cell_at "City" r)) rs).

(** A station file whose city is spelled as the filter expects it. *)
Definition sample_delhi_stations : frame :=
  {| columns := [("City", DObject); ("Station", DObject); ("PM2.5", DFloat)];
     rows := [station_row "Delhi" "ITO" (Num 120);
              station_row "Delhi" "Anand Vihar" (Num 200);
              station_row "Delhi" "ITO" (Num 100);
              station_row "Mumbai" "Bandra" (Num 60)] |}.

(** The rows of one city and one station. *)
Definition station_rows (city station : string) (rs : list (gmap string cell))
  : list (gmap string cell) :=
  List.filter (fun r => match station_key (cell_at "Station" r) with
                        | Some z => String.eqb z station
                        | None => false
                        end)
    (List.filter (fun r => cell_is city (cell_at "City" r)) rs).

(** The text is ASCII: every byte is below 128. *)
Fixpoint is_ascii (s : string) : bool :=
  match s with
  | String a s' => (code a <? 128)%N && is_ascii s'
  | EmptyString => true
  end.

(** The city of every row, as text, is ASCII. *)
Definition ascii_cities (py_str : cell -> string) (df : frame) : bool :=
  forallb (fun r => is_ascii (astype_str py_str (cell_at "City" r))) (rows df).

(** The station identifier of every row is text, or missing. *)
Definition text_stations (df : frame) : bool :=
  forallb (fun r => match cell_at "Station" r with
                    | Str _ => true
                    | c => isna c
                    end) (rows df).

(* ================================================================== *)
(** * Properties *)

(* ------------------------------------------------------------------ *)
(** ** Season *)

Lemma month_cases (m : Z) :
  (1 <= m <= 12)%Z ->
  In m [1; 2; 3; 4; 5; 6; 7; 8; 9; 10; 11; 12]%Z.
Proof.
  intros H. simpl.
  assert (m = 1 \/ m = 2 \/ m = 3 \/ m = 4 \/ m = 5 \/ m = 6 \/ m = 7 \/ m = 8
          \/ m = 9 \/ m = 10 \/ m = 11 \/ m = 12)%Z as C by lia.
  intuition auto.
Qed.

(** C6.  On the months 1..12 the season function takes one of the four
    season names, and it follows the table: 12, 1, 2 are Winter; 3, 4, 5 are
    Summer; 6, 7, 8, 9 are Monsoon; the remaining months 10 and 11 are
    Autumn. *)
Theorem season_table (m : Z) :
  (1 <= m <= 12)%Z ->
  In (season m) ["Winter"; "Summer"; "Monsoon"; "Autumn"]
  /\ (season m = "Winter" <-> m = 12 \/ m = 1 \/ m = 2)%Z
  /\ (season m = "Summer" <-> m = 3 \/ m = 4 \/ m = 5)%Z
  /\ (season m = "Monsoon" <-> m = 6 \/ m = 7 \/ m = 8 \/ m = 9)%Z
  /\ (season m = "Autumn" <-> m = 10 \/ m = 11)%Z.
Proof.
  intros H. apply month_cases in H. simpl in H.
  repeat (destruct H as [<- | H]; [vm_compute; intuition (discriminate || lia) | ]).
  destruct H.
Qed.

Lemma season_table_witness :
  (1 <= 7 <= 12)%Z /\ season 7 = "Monsoon".
Proof.
  split; [lia | ].
  apply (season_table 7); [lia | ]. right. left. reflexivity.
Defined.

(* ------------------------------------------------------------------ *)
(** ** AQI category *)

Lemma Qle_bool_false (x y : Q) : Qle_bool x y = false <-> (y < x)%Q.
Proof.
  rewrite <- not_true_iff_false, Qle_bool_iff. split.
  - apply Qnot_le_lt.
  - apply Qlt_not_le.
Qed.

(** Splits on every comparison of [get_aqi_category] in the goal and turns
    the outcomes into facts on rationals. *)
Ltac split_bins :=
  unfold get_aqi_category, fle;
  repeat match goal with
    | |- context [Qle_bool ?x ?y] =>
        let E := fresh "E" in
        destruct (Qle_bool x y) eqn:E;
        [apply Qle_bool_iff in E | apply Qle_bool_false in E]
    end.

Lemma get_aqi_category_in_order (v : fval) : In (get_aqi_category v) category_order.
Proof.
  unfold get_aqi_category.
  repeat match goal with
    | |- context [fle ?a ?b] => destruct (fle a b)
    end; simpl; tauto.
Qed.

(** C2.  On a real value the AQI category is Good up to 30, Satisfactory
    above 30 up to 60, Moderate above 60 up to 90, Poor above 90 up to 120,
    Very Poor above 120 up to 250 and Severe above 250, every upper bound
    included; a value below 0 is Good; and a larger value never has a less
    severe category. *)
Theorem get_aqi_category_bins (u v : Q) :
  (u <= v)%Q ->
  ((v <= 30)%Q -> get_aqi_category (Some v) = "Good")
  /\ ((30 < v)%Q -> (v <= 60)%Q -> get_aqi_category (Some v) = "Satisfactory")
  /\ ((60 < v)%Q -> (v <= 90)%Q -> get_aqi_category (Some v) = "Moderate")
  /\ ((90 < v)%Q -> (v <= 120)%Q -> get_aqi_category (Some v) = "Poor")
  /\ ((120 < v)%Q -> (v <= 250)%Q -> get_aqi_category (Some v) = "Very Poor")
  /\ ((250 < v)%Q -> get_aqi_category (Some v) = "Severe")
  /\ ((v < 0)%Q -> get_aqi_category (Some v) = "Good")
  /\ severity (get_aqi_category (Some u)) <= severity (get_aqi_category (Some v)).
Proof.
  intros Huv.
  repeat split; try intros H1; try intros H2;
    split_bins; try reflexivity; try lra; vm_compute; lia.
Qed.

Lemma get_aqi_category_bins_witness :
  get_aqi_category (Some 30%Q) = "Good"
  /\ get_aqi_category (Some (3001 # 100)%Q) = "Satisfactory"
  /\ severity (get_aqi_category (Some 30%Q))
     <= severity (get_aqi_category (Some (3001 # 100)%Q)).
Proof.
  assert (30 <= 3001 # 100)%Q as H by (vm_compute; discriminate).
  destruct (get_aqi_category_bins 30 (3001 # 100) H) as (_ & B & _ & _ & _ & _ & _ & M).
  destruct (get_aqi_category_bins 30 30 (Qle_refl 30)) as (G & _).
  split; [ | split].
  - apply G. apply Qle_refl.
  - apply B; vm_compute; congruence.
  - exact M.
Defined.

(* ------------------------------------------------------------------ *)
(** ** Frames: reading back what was written *)

Lemma find_set_dtype_eq c t cols :
  List.find (fun p : string * dtype => String.eqb (fst p) c) (set_dtype c t cols)
  = Some (c, t).
Proof.
  induction cols as [ | [c' t'] cols IH]; simpl.
  - now rewrite String.eqb_refl.
  - destruct (String.eqb c' c) eqn:E; simpl.
    + now rewrite String.eqb_refl.
    + now rewrite E.
Qed.

Lemma find_set_dtype_ne c c' t cols :
  c <> c' ->
  List.find (fun p : string * dtype => String.eqb (fst p) c') (set_dtype c t cols)
  = List.find (fun p : string * dtype => String.eqb (fst p) c') cols.
Proof.
  intros Hne. induction cols as [ | [d t'] cols IH]; simpl.
  - destruct (String.eqb c c') eqn:E; [ | reflexivity].
    apply String.eqb_eq in E. contradiction.
  - destruct (String.eqb d c) eqn:E; simpl.
    + apply String.eqb_eq in E. subst d.
      destruct (String.eqb c c') eqn:E'; [ | reflexivity].
      apply String.eqb_eq in E'. contradiction.
    + now rewrite IH.
Qed.

Lemma col_dtype_setitem_eq df c t vs : col_dtype (setitem df c t vs) c = Some t.
Proof. unfold col_dtype, setitem. simpl. now rewrite find_set_dtype_eq. Qed.

Lemma col_dtype_setitem_ne df c c' t vs :
  c <> c' -> col_dtype (setitem df c t vs) c' = col_dtype df c'.
Proof. intros H. unfold col_dtype, setitem. simpl. now rewrite find_set_dtype_ne. Qed.

Lemma has_column_setitem_eq df c t vs : has_column (setitem df c t vs) c = true.
Proof. unfold has_column. now rewrite col_dtype_setitem_eq. Qed.

Lemma has_column_setitem_ne df c c' t vs :
  c <> c' -> has_column (setitem df c t vs) c' = has_column df c'.
Proof. intros H. unfold has_column. now rewrite col_dtype_setitem_ne. Qed.

(** Writing a Series computed row by row from the frame itself. *)
Lemma zip_set_map c (h : gmap string cell -> cell) rs :
  zip_set c rs (List.map h rs) = List.map (fun r => <[c := h r]> r) rs.
Proof. induction rs as [ | r rs IH]; simpl; [reflexivity | now rewrite IH]. Qed.

Lemma cell_at_insert_eq c v (r : gmap string cell) : cell_at c (<[c := v]> r) = v.
Proof. unfold cell_at. now rewrite lookup_insert_eq. Qed.

Lemma cell_at_insert_ne c c' v (r : gmap string cell) :
  c <> c' -> cell_at c' (<[c := v]> r) = cell_at c' r.
Proof. intros H. unfold cell_at. now rewrite lookup_insert_ne. Qed.

Lemma length_zip_set_map c (h : gmap string cell -> cell) rs :
  length (zip_set c rs (List.map h rs)) = length rs.
Proof. rewrite zip_set_map. apply length_map. Qed.

Lemma numeric_column_ok df c t :
  col_dtype df c = Some t -> is_numeric t = true ->
  numeric_column df c = Ok (List.map to_float (List.map (cell_at c) (rows df))).
Proof.
  intros Hc Ht. unfold numeric_column, getitem, has_column. rewrite Hc. simpl.
  now rewrite Ht.
Qed.

(* ------------------------------------------------------------------ *)
(** ** Category distribution *)

Lemma value_counts_lookup (l : list string) (k : string) :
  default 0 (value_counts (List.map Str l) !! k) = count_label k l.
Proof.
  unfold count_label. induction l as [ | x l IH]; simpl.
  - now rewrite lookup_empty.
  - destruct (String.eqb k x) eqn:E.
    + apply String.eqb_eq in E. subst x. rewrite lookup_insert_eq. simpl.
      now rewrite IH.
    + rewrite lookup_insert_ne; [exact IH | ].
      intros ->. now rewrite String.eqb_refl in E.
Qed.

Lemma list_sum_indicator (x : string) (order : list string) :
  List.NoDup order -> In x order ->
  list_sum (List.map (fun k => if String.eqb k x then 1 else 0) order) = 1.
Proof.
  induction order as [ | k order IH]; intros Hnd Hin; [destruct Hin | ].
  apply List.NoDup_cons_iff in Hnd as [Hk Hnd]. simpl.
  destruct (String.eqb k x) eqn:E.
  - apply String.eqb_eq in E. subst k.
    assert (list_sum (List.map (fun k => if String.eqb k x then 1 else 0) order) = 0)
      as ->; [ | reflexivity].
    clear IH Hin Hnd. induction order as [ | y order IH]; [reflexivity | ].
    simpl. destruct (String.eqb y x) eqn:E.
    + apply String.eqb_eq in E. subst y. exfalso. apply Hk. now left.
    + apply IH. intros H. apply Hk. now right.
  - destruct Hin as [-> | Hin]; [now rewrite String.eqb_refl in E | ].
    now rewrite IH.
Qed.

Lemma list_sum_cons (a : nat) (l : list nat) : list_sum (a :: l) = a + list_sum l.
Proof. reflexivity. Qed.

Lemma list_sum_count_cons (x : string) (order l : list string) :
  list_sum (List.map (fun k => count_label k (x :: l)) order)
  = list_sum (List.map (fun k => if String.eqb k x then 1 else 0) order)
    + list_sum (List.map (fun k => count_label k l) order).
Proof.
  induction order as [ | k order IH]; [reflexivity | ].
  rewrite !List.map_cons, !list_sum_cons, IH.
  assert (count_label k (x :: l)
          = (if String.eqb k x then 1 else 0) + count_label k l) as ->; [ | lia].
  unfold count_label. simpl. now destruct (String.eqb k x).
Qed.

Lemma list_sum_count_label (order l : list string) :
  List.NoDup order -> Forall (fun x => In x order) l ->
  list_sum (List.map (fun k => count_label k l) order) = length l.
Proof.
  intros Hnd Hall. induction Hall as [ | x l Hx Hall IH].
  - induction order as [ | k order IHo]; [reflexivity | ].
    simpl. apply IHo. now apply List.NoDup_cons_iff in Hnd.
  - rewrite list_sum_count_cons, IH, (list_sum_indicator x order Hnd Hx).
    reflexivity.
Qed.

Lemma category_order_NoDup : List.NoDup category_order.
Proof.
  unfold category_order.
  repeat (apply List.NoDup_cons; [simpl; intuition discriminate | ]).
  apply List.NoDup_nil.
Qed.

(** C7.  For a daily frame with a numeric PM2.5 column, the category
    column is assigned, the distribution lists exactly the six categories
    in their fixed order, and its six counts add up to the number of rows. *)
Theorem aqi_counts_sum (df : frame) (t : dtype) :
  col_dtype df "PM2.5" = Some t -> is_numeric t = true ->
  exists df' counts,
    categorize df = Ok df'
    /\ length (rows df') = length (rows df)
    /\ aqi_counts df' = Ok counts
    /\ List.map fst counts = category_order
    /\ list_sum (List.map snd counts) = length (rows df').
Proof.
  intros Hc Ht.
  pose (label := fun r : gmap string cell => get_aqi_category (to_float (cell_at "PM2.5" r))).
  pose (df' := setitem df "AQI_Category" DObject
                 (List.map (fun r => Str (label r)) (rows df))).
  assert (categorize df = Ok df') as Hcat.
  { unfold categorize. rewrite (numeric_column_ok df _ t Hc Ht).
    unfold df', label. cbn [mbind result_bind]. now rewrite !List.map_map. }
  assert (rows df' = List.map (fun r => <["AQI_Category" := Str (label r)]> r) (rows df))
    as Hrows by apply zip_set_map.
  assert (getitem df' "AQI_Category" = Ok (List.map Str (List.map label (rows df))))
    as Hget.
  { unfold getitem. unfold df' at 1. rewrite has_column_setitem_eq, Hrows.
    rewrite !List.map_map. f_equal. apply List.map_ext. intros r.
    apply cell_at_insert_eq. }
  exists df', (reindex category_order (value_counts (List.map Str (List.map label (rows df))))).
  split; [exact Hcat | ].
  split; [rewrite Hrows; apply length_map | ].
  split; [unfold aqi_counts; now rewrite Hget | ].
  split.
  - unfold reindex. rewrite List.map_map. apply List.map_id.
  - unfold reindex. rewrite List.map_map. cbn [snd].
    rewrite (List.map_ext _ (fun k => count_label k (List.map label (rows df))));
      [ | intros k; apply value_counts_lookup].
    rewrite list_sum_count_label.
    + rewrite Hrows, !length_map. reflexivity.
    + apply category_order_NoDup.
    + apply List.Forall_forall. intros x Hx. apply List.in_map_iff in Hx as (r & <- & _).
      apply get_aqi_category_in_order.
Qed.

Lemma aqi_counts_sum_witness :
  exists df' counts,
    categorize sample_daily = Ok df'
    /\ length (rows df') = length (rows sample_daily)
    /\ aqi_counts df' = Ok counts
    /\ List.map fst counts = category_order
    /\ list_sum (List.map snd counts) = length (rows df').
Proof. apply (aqi_counts_sum sample_daily DFloat); reflexivity. Defined.

(* ------------------------------------------------------------------ *)
(** ** Text normalization *)

(** A fact on all 256 characters, by enumeration. *)
Ltac by_enumeration a :=
  destruct a as [[] [] [] [] [] [] [] []]; reflexivity.

Lemma is_space_to_upper a : is_space (to_upper a) = is_space a.
Proof. by_enumeration a. Qed.

Lemma is_space_to_lower a : is_space (to_lower a) = is_space a.
Proof. by_enumeration a. Qed.

Lemma is_upper_to_lower a : is_upper (to_lower a) = false.
Proof. by_enumeration a. Qed.

Lemma is_lower_to_upper a : is_lower (to_upper a) = false.
Proof. by_enumeration a. Qed.

Lemma is_cased_to_lower a : is_cased (to_lower a) = is_cased a.
Proof. by_enumeration a. Qed.

Lemma is_cased_to_upper a : is_cased (to_upper a) = is_cased a.
Proof. by_enumeration a. Qed.

Lemma leading_space_lstrip s : leading_space (lstrip s) = false.
Proof.
  induction s as [ | a s IH]; simpl; [reflexivity | ].
  destruct (is_space a) eqn:E; [exact IH | simpl; exact E].
Qed.

Lemma trailing_space_rstrip s : trailing_space (rstrip s) = false.
Proof.
  induction s as [ | a s IH]; simpl; [reflexivity | ].
  destruct (rstrip s) as [ | b t] eqn:E.
  - destruct (is_space a) eqn:Ea; simpl; [reflexivity | exact Ea].
  - exact IH.
Qed.

Lemma leading_space_rstrip s : leading_space s = false -> leading_space (rstrip s) = false.
Proof.
  destruct s as [ | a s]; simpl; [reflexivity | ]. intros Ha.
  destruct (rstrip s); [rewrite Ha | ]; simpl; exact Ha.
Qed.

Lemma leading_space_title p s : leading_space (title_from p s) = leading_space s.
Proof.
  destruct s as [ | a s]; simpl; [reflexivity | ].
  destruct p; [apply is_space_to_lower | apply is_space_to_upper].
Qed.

Lemma trailing_space_title p s : trailing_space (title_from p s) = trailing_space s.
Proof.
  revert p. induction s as [ | a s IH]; intros p; [reflexivity | ].
  destruct s as [ | b s].
  - simpl. destruct p; [apply is_space_to_lower | apply is_space_to_upper].
  - change (title_from p (String a (String b s)))
      with (String (if p then to_lower a else to_upper a)
                   (title_from (is_cased a) (String b s))).
    specialize (IH (is_cased a)).
    remember (title_from (is_cased a) (String b s)) as t eqn:Et.
    destruct t as [ | c t]; [discriminate Et | ].
    exact IH.
Qed.

Lemma titlecased_title p s : titlecased_from p (title_from p s) = true.
Proof.
  revert p. induction s as [ | a s IH]; intros p; [reflexivity | ].
  simpl. apply andb_true_intro. split.
  - destruct p.
    + rewrite is_upper_to_lower.
      now destruct (is_lower (to_lower a)).
    + rewrite is_lower_to_upper.
      now destruct (is_upper (to_upper a)).
  - destruct p; [rewrite is_cased_to_lower | rewrite is_cased_to_upper]; apply IH.
Qed.

Lemma normalized_title_strip s : normalized (title (strip s)) = true.
Proof.
  unfold normalized, title, strip, titlecased.
  rewrite leading_space_title, trailing_space_title, titlecased_title.
  rewrite trailing_space_rstrip, leading_space_rstrip; [reflexivity | ].
  apply leading_space_lstrip.
Qed.

(** C8, as the code has it.  In a frame with a City column whose city
    texts are ASCII, the city of every record is replaced by its text,
    stripped and title-cased, which has no whitespace at either end and is
    in title case; every other field of the record, the station identifier
    included, stays as it was loaded. *)
Theorem normalize_city_normalizes (py_str : cell -> string) (df : frame) :
  has_column df "City" = true ->
  ascii_cities py_str df = true ->
  exists df',
    normalize_city py_str df = Ok df'
    /\ Forall2 (fun r r' => exists s,
                    r' = <["City" := Str s]> r
                    /\ s = title (strip (astype_str py_str (cell_at "City" r)))
                    /\ normalized s = true)
         (rows df) (rows df').
Proof.
  intros Hc _. unfold normalize_city, getitem. rewrite Hc.
  destruct (df_empty df) eqn:Ee; simpl.
  - exists df. split; [reflexivity | ].
    unfold df_empty in Ee. destruct (rows df) as [ | r rs].
    + constructor.
    + destruct (columns df) eqn:Ecol; [ | discriminate Ee].
      unfold has_column, col_dtype in Hc. now rewrite Ecol in Hc.
  - eexists. split; [reflexivity | ]. simpl.
    rewrite List.map_map, zip_set_map.
    induction (rows df) as [ | r rs IH]; simpl; constructor; [ | exact IH].
    eexists. split; [reflexivity | ]. split; [reflexivity | ].
    apply normalized_title_strip.
Qed.

Lemma normalize_city_normalizes_witness :
  exists df',
    normalize_city sample_str sample_station = Ok df'
    /\ Forall2 (fun r r' => exists s,
                    r' = <["City" := Str s]> r
                    /\ s = title (strip (astype_str sample_str (cell_at "City" r)))
                    /\ normalized s = true)
         (rows sample_station) (rows df').
Proof.
  apply (normalize_city_normalizes sample_str sample_station); reflexivity.
Defined.

(** C8 as stated fails: the station identifier of a loaded station file
    keeps its surrounding whitespace and its case. *)
Lemma station_identifier_not_normalized :
  ~ (forall py_str df df',
        normalize_city py_str df = Ok df' -> text_fields_normalized df').
Proof.
  intros H.
  specialize (H sample_str sample_station _ eq_refl
                (<["City" := Str "Delhi"]> (station_row " delhi" " anand vihar " (Num 120)))
                "Station" " anand vihar ").
  discriminate H.
  - left. reflexivity.
  - right. left. reflexivity.
  - reflexivity.
Qed.

(* ------------------------------------------------------------------ *)
(** ** Hourly data: rows that do not parse *)

Lemma select_map (f : gmap string cell -> bool) rs :
  select (List.map f rs) rs = List.filter f rs.
Proof.
  induction rs as [ | r rs IH]; simpl; [reflexivity | ].
  destruct (f r); now rewrite IH.
Qed.

Lemma filter_filter_comm {A} (f g : A -> bool) (l : list A) :
  List.filter f (List.filter g l) = List.filter g (List.filter f l).
Proof.
  induction l as [ | x l IH]; simpl; [reflexivity | ].
  destruct (f x) eqn:Ef, (g x) eqn:Eg; simpl;
    rewrite ?Ef, ?Eg, ?IH; reflexivity.
Qed.

Lemma omap_id_cons {A} (x : option A) (l : list (option A)) :
  omap id (x :: l) = match x with Some y => y :: omap id l | None => omap id l end.
Proof. reflexivity. Qed.

(** Rows without a group key do not show in the keys nor in any group. *)
Lemma group_keys_filter (key : gmap string cell -> option Z)
      (p : gmap string cell -> bool) rs :
  (forall r, In r rs -> p r = false -> key r = None) ->
  omap id (List.map key (List.filter p rs)) = omap id (List.map key rs).
Proof.
  induction rs as [ | r rs IH]; intros H; [reflexivity | ].
  assert (forall r0, In r0 rs -> p r0 = false -> key r0 = None) as H'
      by (intros r0 Hr0; apply H; now right).
  specialize (IH H').
  cbn [List.filter List.map]. rewrite omap_id_cons.
  destruct (p r) eqn:Ep.
  - cbn [List.map]. rewrite omap_id_cons, IH. reflexivity.
  - rewrite (H r (or_introl eq_refl) Ep). exact IH.
Qed.

Lemma group_values_filter (key : gmap string cell -> option Z)
      (val : gmap string cell -> fval) (p : gmap string cell -> bool) h rs :
  (forall r, In r rs -> p r = false -> key r = None) ->
  group_values h (List.map key (List.filter p rs)) (List.map val (List.filter p rs))
  = group_values h (List.map key rs) (List.map val rs).
Proof.
  induction rs as [ | r rs IH]; intros H; simpl; [reflexivity | ].
  assert (forall r0, In r0 rs -> p r0 = false -> key r0 = None) as H'
      by (intros r0 Hr0; apply H; now right).
  destruct (p r) eqn:Ep; simpl.
  - rewrite (IH H'). reflexivity.
  - rewrite (H r (or_introl eq_refl) Ep). apply (IH H').
Qed.

Lemma hourly_avg_parsed_rows (df : frame) :
  (forall r, In r (rows df) -> isna (cell_at "Datetime" r) = true ->
             hour_key (cell_at "Hour" r) = None) ->
  hourly_avg (parsed_rows df) = hourly_avg df.
Proof.
  intros H. unfold hourly_avg, where_equal, getitem, has_column, col_dtype.
  change (columns (parsed_rows df)) with (columns df).
  destruct (List.find _ (columns df)) as [p | ]; simpl; [ | reflexivity].
  unfold groupby_mean, numeric_column, getitem, has_column, col_dtype. simpl.
  destruct (List.find (fun p => String.eqb (fst p) "Hour") (columns df)) as [ph | ];
    simpl; [ | reflexivity].
  destruct (List.find (fun p => String.eqb (fst p) "PM2.5") (columns df)) as [pv | ];
    simpl; [ | reflexivity].
  destruct (is_numeric (snd pv)); simpl; [ | reflexivity].
  rewrite !List.map_map, !select_map, filter_filter_comm.
  set (D := List.filter (fun r => cell_is "Delhi" (cell_at "City" r)) (rows df)).
  assert (forall r, In r D -> negb (isna (cell_at "Datetime" r)) = false ->
                    hour_key (cell_at "Hour" r) = None) as HD.
  { intros r Hr Hna. apply H.
    - unfold D in Hr. now apply List.filter_In in Hr.
    - now apply negb_false_iff in Hna. }
  unfold group_keys.
  rewrite (group_keys_filter (fun r => hour_key (cell_at "Hour" r)) _ D HD).
  f_equal. apply List.map_ext. intros h. f_equal. f_equal.
  apply (group_values_filter (fun r => hour_key (cell_at "Hour" r))
           (fun r => to_float (cell_at "PM2.5" r)) _ h D HD).
Qed.

Lemma assign_datetime_rows parse df :
  has_column df "Datetime" = true ->
  assign_datetime parse df
  = setitem df "Datetime" DDatetime
      (List.map (fun r => to_datetime_cell parse (cell_at "Datetime" r)) (rows df)).
Proof.
  intros H. unfold assign_datetime, to_datetime, df_get. rewrite H. simpl.
  now rewrite List.map_map.
Qed.

Lemma setitem_rows df c t (h : gmap string cell -> cell) :
  rows (setitem df c t (List.map h (rows df)))
  = List.map (fun r => <[c := h r]> r) (rows df).
Proof. apply zip_set_map. Qed.

Lemma dt_ok df c (field : timestamp -> Z) :
  has_column df c = true -> col_dtype df c = Some DDatetime ->
  dt df c field
  = Ok (List.map (fun r => match cell_at c r with
                           | Stamp t => Int (field t)
                           | _ => NaN
                           end) (rows df)).
Proof.
  intros H1 H2. unfold dt, getitem. rewrite H1, H2.
  cbn [mbind result_bind]. now rewrite List.map_map.
Qed.

(** C10.  In an hourly frame with a Datetime column every row is kept: the
    row gets its parsed timestamp, NaT when it does not parse, and its hour,
    NaN when the timestamp is NaT.  The per-hour mean is the one of the frame
    without the rows whose timestamp is NaT. *)
Theorem hourly_unparsed_rows_kept (parse : cell -> option timestamp) (df : frame) :
  has_column df "Datetime" = true ->
  exists df',
    derive_hour parse df = Ok df'
    /\ length (rows df') = length (rows df)
    /\ Forall2 (fun r r' =>
                  r' = <["Hour" := match to_datetime_cell parse (cell_at "Datetime" r) with
                                   | Stamp t => Int (ts_hour t)
                                   | _ => NaN
                                   end]>
                         (<["Datetime" := to_datetime_cell parse (cell_at "Datetime" r)]> r))
         (rows df) (rows df')
    /\ hourly_avg (parsed_rows df') = hourly_avg df'.
Proof.
  intros Hc. unfold derive_hour. rewrite (assign_datetime_rows parse df Hc).
  set (d := fun r => to_datetime_cell parse (cell_at "Datetime" r)).
  set (df1 := setitem df "Datetime" DDatetime (List.map d (rows df))).
  rewrite (dt_ok df1 "Datetime" ts_hour)
    by (apply has_column_setitem_eq || apply col_dtype_setitem_eq).
  cbn [mbind result_bind].
  match goal with |- exists df', Ok ?x = Ok df' /\ _ => set (df2 := x) end.
  assert (rows df2
          = List.map (fun r => <["Hour" := match d r with
                                           | Stamp t => Int (ts_hour t)
                                           | _ => NaN
                                           end]> (<["Datetime" := d r]> r)) (rows df))
    as Hrows.
  { unfold df2. rewrite setitem_rows. unfold df1. rewrite setitem_rows, List.map_map.
    apply List.map_ext. intros r. now rewrite cell_at_insert_eq. }
  exists df2. split; [reflexivity | ].
  split; [rewrite Hrows; apply length_map | ].
  split.
  - rewrite Hrows. clear. induction (rows df) as [ | r rs IH]; simpl; constructor;
      [reflexivity | exact IH].
  - apply hourly_avg_parsed_rows. rewrite Hrows. intros r' Hr' Hna.
    apply List.in_map_iff in Hr' as (r & <- & _).
    rewrite cell_at_insert_eq.
    rewrite cell_at_insert_ne, cell_at_insert_eq in Hna by discriminate.
    now destruct (d r).
Qed.

Lemma hourly_unparsed_rows_kept_witness :
  exists df',
    derive_hour sample_parse sample_hourly = Ok df'
    /\ length (rows df') = length (rows sample_hourly)
    /\ Forall2 (fun r r' =>
                  r' = <["Hour" := match to_datetime_cell sample_parse (cell_at "Datetime" r) with
                                   | Stamp t => Int (ts_hour t)
                                   | _ => NaN
                                   end]>
                         (<["Datetime" := to_datetime_cell sample_parse (cell_at "Datetime" r)]> r))
         (rows sample_hourly) (rows df')
    /\ hourly_avg (parsed_rows df') = hourly_avg df'.
Proof. apply (hourly_unparsed_rows_kept sample_parse sample_hourly). reflexivity. Defined.

(** The sample: the reading of 500 has no hour and is in no mean. *)
Example hourly_avg_sample :
  match derive_hour sample_parse sample_hourly with
  | Ok df =>
      List.map (cell_at "Hour") (rows df) = [Int 7; NaN; Int 7]
      /\ match hourly_avg df with
         | Ok l => List.map (fun p => (fst p, option_map Qred (snd p))) l
                   = [(7%Z, Some 90%Q)]
         | Err _ => False
         end
  | Err _ => False
  end.
Proof. vm_compute. split; reflexivity. Qed.

(* ------------------------------------------------------------------ *)
(** ** Outlier trimming *)

Lemma Qlt_bool_iff (x y : Q) : Qlt_bool x y = true <-> (x < y)%Q.
Proof.
  unfold Qlt_bool. rewrite negb_true_iff. apply Qle_bool_false.
Qed.

Lemma flt_true (a b : fval) :
  flt a b = true <-> exists x y, a = Some x /\ b = Some y /\ (x < y)%Q.
Proof.
  split.
  - destruct a as [x | ], b as [y | ]; simpl; try discriminate.
    intros H. exists x, y. now rewrite <- Qlt_bool_iff.
  - intros (x & y & -> & -> & H). simpl. now apply Qlt_bool_iff.
Qed.

Lemma trim_column_present df c t :
  col_dtype df c = Some t -> is_numeric t = true ->
  trim_column df c = Ok {| columns := columns df; rows := trim_rows (rows df) c |}.
Proof.
  intros Hc Ht. unfold trim_column, has_column. rewrite Hc.
  rewrite (numeric_column_ok df c t Hc Ht). cbn [mbind result_bind].
  unfold df_select, trim_rows. f_equal. f_equal.
  rewrite !List.map_map.
  rewrite <- (select_map (below_threshold c (rows df)) (rows df)).
  unfold below_threshold, threshold, column_values, reading.
  reflexivity.
Qed.

Lemma trim_column_absent df c :
  col_dtype df c = None -> trim_column df c = Ok df.
Proof. intros Hc. unfold trim_column, has_column. now rewrite Hc. Qed.

Lemma trim_column_step df c :
  present_numeric df [c] = true ->
  trim_column df c
  = Ok {| columns := columns df; rows := trim_present df (rows df) c |}.
Proof.
  unfold present_numeric, trim_present, has_column. simpl.
  destruct (col_dtype df c) as [t | ] eqn:Hc.
  - rewrite andb_true_r. intros Ht. now apply trim_column_present with t.
  - intros _. rewrite (trim_column_absent df c Hc). now destruct df.
Qed.

Lemma trim_loop cols : forall df,
  present_numeric df cols = true ->
  for_each trim_column df cols
  = Ok {| columns := columns df;
          rows := List.fold_left (trim_present df) cols (rows df) |}.
Proof.
  induction cols as [ | c cols IH]; intros df H.
  - simpl. now destruct df.
  - unfold present_numeric in H. cbn [forallb] in H.
    apply andb_true_iff in H as [Hc Hcols].
    cbn [for_each]. rewrite (trim_column_step df c).
    + cbn [mbind result_bind]. rewrite IH; [reflexivity | exact Hcols].
    + unfold present_numeric. cbn [forallb]. now rewrite Hc.
Qed.

Lemma in_trim_rows rs c r :
  In r (trim_rows rs c)
  <-> In r rs /\ exists v t, reading c r = Some v /\ threshold c rs = Some t /\ (v < t)%Q.
Proof.
  unfold trim_rows. rewrite List.filter_In. unfold below_threshold.
  now rewrite flt_true.
Qed.

(** C1, as the code has it.  The loop goes through the pollutant columns
    in their fixed order; for a column that is there, it keeps exactly the
    rows whose reading is strictly below the 99th-percentile threshold of
    the rows left by the columns before, so that a row at the threshold or
    with a missing reading goes as well; rows are dropped whole and the kept
    ones are not changed. *)
Theorem trim_outliers_keeps_rows_below (df : frame) :
  present_numeric df pollutants = true ->
  exists df',
    trim_outliers df = Ok df'
    /\ columns df' = columns df
    /\ rows df' = List.fold_left (trim_present df) pollutants (rows df)
    /\ forall rs c r,
         In r (trim_rows rs c)
         <-> In r rs /\ exists v t, reading c r = Some v
                                    /\ threshold c rs = Some t /\ (v < t)%Q.
Proof.
  intros H. eexists. split; [apply (trim_loop pollutants df H) | ].
  split; [reflexivity | ]. split; [reflexivity | ].
  apply in_trim_rows.
Qed.

Lemma trim_outliers_keeps_rows_below_witness :
  exists df',
    trim_outliers sample_three = Ok df'
    /\ columns df' = columns sample_three
    /\ rows df' = List.fold_left (trim_present sample_three) pollutants (rows sample_three)
    /\ forall rs c r,
         In r (trim_rows rs c)
         <-> In r rs /\ exists v t, reading c r = Some v
                                    /\ threshold c rs = Some t /\ (v < t)%Q.
Proof. apply (trim_outliers_keeps_rows_below sample_three). vm_compute. reflexivity. Defined.

(** C1 as stated fails: a single row does not exceed the threshold, which
    is its own reading, and is removed all the same. *)
Lemma row_at_threshold_removed :
  ~ (forall df df',
        trim_outliers df = Ok df' ->
        rows df' = List.fold_left trim_exceeding pollutants (rows df)).
Proof.
  intros H.
  assert (exists df', trim_outliers sample_one = Ok df' /\ rows df' = []) as (df' & E & Er)
    by (vm_compute; eexists; split; reflexivity).
  specialize (H _ _ E). rewrite Er in H.
  apply (f_equal (@length _)) in H. vm_compute in H. discriminate H.
Qed.

(* ------------------------------------------------------------------ *)
(** ** Imputation *)

Lemma column_means_ok df cols :
  numeric_columns df cols = true ->
  column_means df cols
  = Ok (List.map (fun c => (c, mean (column_values c (rows df)))) cols).
Proof.
  induction cols as [ | c cols IH]; intros H; [reflexivity | ].
  unfold numeric_columns in H. cbn [forallb] in H.
  apply andb_true_iff in H as [Hc Hcols].
  destruct (col_dtype df c) as [t | ] eqn:Et; [ | discriminate Hc].
  cbn [column_means]. rewrite (numeric_column_ok df c t Et Hc).
  cbn [mbind result_bind]. rewrite (IH Hcols). cbn [mbind result_bind].
  unfold column_values, reading. now rewrite List.map_map.
Qed.

Lemma require_columns_ok df cols :
  numeric_columns df cols = true -> require_columns df cols = Ok tt.
Proof.
  induction cols as [ | c cols IH]; intros H; [reflexivity | ].
  unfold numeric_columns in H. cbn [forallb] in H.
  apply andb_true_iff in H as [Hc Hcols].
  cbn [require_columns]. unfold has_column.
  destruct (col_dtype df c); [now apply IH | discriminate Hc].
Qed.

Lemma fill_row_cons c m means r :
  fill_row ((c, m) :: means) r
  = fill_row means (<[c := fill_cell m (cell_at c r)]> r).
Proof. reflexivity. Qed.

Lemma cell_at_fill_row_other (m : string -> fval) cols c : forall r,
  ~ In c cols ->
  cell_at c (fill_row (List.map (fun c => (c, m c)) cols) r) = cell_at c r.
Proof.
  induction cols as [ | c0 cols IH]; intros r Hn; [reflexivity | ].
  cbn [List.map]. rewrite fill_row_cons, IH.
  - apply cell_at_insert_ne. intros ->. apply Hn. now left.
  - intros Hin. apply Hn. now right.
Qed.

Lemma cell_at_fill_row (m : string -> fval) cols c : forall r,
  List.NoDup cols -> In c cols ->
  cell_at c (fill_row (List.map (fun c => (c, m c)) cols) r)
  = fill_cell (m c) (cell_at c r).
Proof.
  induction cols as [ | c0 cols IH]; intros r Hnd Hin; [destruct Hin | ].
  apply List.NoDup_cons_iff in Hnd as [Hc0 Hnd].
  cbn [List.map]. rewrite fill_row_cons.
  destruct (String.eqb c0 c) eqn:E.
  - apply String.eqb_eq in E. subst c0.
    rewrite cell_at_fill_row_other by exact Hc0. apply cell_at_insert_eq.
  - assert (c0 <> c) as Hne by (intros ->; now rewrite String.eqb_refl in E).
    destruct Hin as [-> | Hin]; [contradiction | ].
    rewrite (IH _ Hnd Hin). now rewrite cell_at_insert_ne.
Qed.

Lemma pollutants_NoDup : List.NoDup pollutants.
Proof.
  unfold pollutants.
  repeat (apply List.NoDup_cons; [simpl; intuition discriminate | ]).
  apply List.NoDup_nil.
Qed.

Lemma numeric_columns_present df cols :
  numeric_columns df cols = true -> present_numeric df cols = true.
Proof.
  unfold numeric_columns, present_numeric. rewrite !List.forallb_forall.
  intros H c Hc. specialize (H c Hc). now destruct (col_dtype df c).
Qed.

Lemma fold_trim_present_all df cols : forall rs,
  numeric_columns df cols = true ->
  List.fold_left (trim_present df) cols rs = List.fold_left trim_rows cols rs.
Proof.
  induction cols as [ | c cols IH]; intros rs H; [reflexivity | ].
  unfold numeric_columns in H. cbn [forallb] in H.
  apply andb_true_iff in H as [Hc Hcols].
  cbn [List.fold_left]. rewrite (IH _ Hcols). f_equal.
  unfold trim_present, has_column. now destruct (col_dtype df c).
Qed.

Lemma fold_trim_rows_incl cols : forall rs r,
  In r (List.fold_left trim_rows cols rs) -> In r rs.
Proof.
  induction cols as [ | c cols IH]; intros rs r H; [exact H | ].
  cbn [List.fold_left] in H. apply IH in H. now apply List.filter_In in H.
Qed.

(** After the loop every kept row has a reading in every trimmed column. *)
Lemma fold_trim_rows_reading cols : forall rs r c,
  In c cols -> In r (List.fold_left trim_rows cols rs) -> reading c r <> None.
Proof.
  induction cols as [ | c0 cols IH]; intros rs r c Hc H; [destruct Hc | ].
  cbn [List.fold_left] in H. destruct Hc as [-> | Hc].
  - apply fold_trim_rows_incl, in_trim_rows in H as (_ & v & t & -> & _).
    discriminate.
  - now apply (IH _ _ _ Hc H).
Qed.

Lemma fill_cell_spec (vs : list fval) (x : cell) :
  fill_cell (mean vs) x
  = match to_float x with
    | Some _ => x
    | None => match valid vs with
              | [] => NaN
              | xs => Num (arithmetic_mean xs)
              end
    end.
Proof.
  unfold fill_cell, mean, arithmetic_mean.
  destruct (to_float x); [reflexivity | ]. now destruct (valid vs).
Qed.

(** C4, as the code has it.  Imputation replaces every missing reading of
    a pollutant column that has at least one reading by the arithmetic mean
    of all readings of that column in the frame, and leaves the readings
    that are there; a column without any reading stays missing.  After the
    trimming that follows, no row that is left has a missing pollutant
    reading. *)
Theorem impute_fills_with_column_mean (df : frame) :
  numeric_columns df pollutants = true ->
  exists df' df'',
    impute df = Ok df'
    /\ columns df' = columns df
    /\ Forall2 (fun r r' =>
                  forall c, In c pollutants ->
                    cell_at c r'
                    = match reading c r with
                      | Some _ => cell_at c r
                      | None => match valid (column_values c (rows df)) with
                                | [] => NaN
                                | xs => Num (arithmetic_mean xs)
                                end
                      end)
         (rows df) (rows df')
    /\ clean df = Ok df''
    /\ no_missing_pollutant df''.
Proof.
  intros H.
  pose (means := List.map (fun c => (c, mean (column_values c (rows df)))) pollutants).
  pose (df' := {| columns := columns df; rows := List.map (fill_row means) (rows df) |}).
  assert (impute df = Ok df') as Himp.
  { unfold impute. rewrite (require_columns_ok df pollutants H).
    cbn [mbind result_bind]. now rewrite (column_means_ok df pollutants H). }
  assert (numeric_columns df' pollutants = true) as H' by exact H.
  pose (df'' := {| columns := columns df';
                   rows := List.fold_left (trim_present df') pollutants (rows df') |}).
  assert (clean df = Ok df'') as Hclean.
  { unfold clean. rewrite Himp. cbn [mbind result_bind].
    apply (trim_loop pollutants df'), numeric_columns_present, H'. }
  exists df', df''. split; [exact Himp | ]. split; [reflexivity | ].
  split; [ | split; [exact Hclean | ]].
  - cbn [rows df'].
    assert (forall rs,
               Forall2 (fun r r' =>
                          forall c, In c pollutants ->
                            cell_at c r'
                            = match reading c r with
                              | Some _ => cell_at c r
                              | None => match valid (column_values c (rows df)) with
                                        | [] => NaN
                                        | xs => Num (arithmetic_mean xs)
                                        end
                              end)
                 rs (List.map (fill_row means) rs)) as Hall; [ | apply Hall].
    intros rs.
    induction rs as [ | r rs IH]; cbn [List.map]; constructor; [ | exact IH].
    intros c Hc. unfold means.
    rewrite (cell_at_fill_row (fun c => mean (column_values c (rows df)))
               pollutants c r pollutants_NoDup Hc).
    apply fill_cell_spec.
  - intros r c Hr Hc. cbn [rows df''] in Hr.
    rewrite (fold_trim_present_all df' pollutants _ H') in Hr.
    exact (fold_trim_rows_reading pollutants (rows df') r c Hc Hr).
Qed.

(** C4 as stated fails: a column that holds no reading at all has no mean,
    and imputation leaves it missing. *)
Lemma unmeasured_column_stays_missing :
  ~ (forall df df', impute df = Ok df' -> no_missing_pollutant df').
Proof.
  intros H.
  assert (exists df' r, impute sample_unmeasured = Ok df'
                        /\ In r (rows df') /\ reading "Xylene" r = None)
    as (df' & r & E & Hr & Hx).
  { vm_compute. eexists. eexists.
    split; [reflexivity | ]. split; [left; reflexivity | reflexivity]. }
  apply (H _ _ E r "Xylene" Hr); [ | exact Hx].
  unfold pollutants. simpl. tauto.
Qed.

Lemma impute_fills_with_column_mean_witness :
  exists df' df'',
    impute sample_unmeasured = Ok df'
    /\ columns df' = columns sample_unmeasured
    /\ Forall2 (fun r r' =>
                  forall c, In c pollutants ->
                    cell_at c r'
                    = match reading c r with
                      | Some _ => cell_at c r
                      | None => match valid (column_values c (rows sample_unmeasured)) with
                                | [] => NaN
                                | xs => Num (arithmetic_mean xs)
                                end
                      end)
         (rows sample_unmeasured) (rows df')
    /\ clean sample_unmeasured = Ok df''
    /\ no_missing_pollutant df''.
Proof.
  apply (impute_fills_with_column_mean sample_unmeasured). vm_compute. reflexivity.
Defined.

(* ------------------------------------------------------------------ *)
(** ** The sorted values behind a quantile *)

Lemma insert_sorted_perm x l : Permutation (insert_sorted x l) (x :: l).
Proof.
  induction l as [ | y l IH]; simpl; [apply Permutation_refl | ].
  destruct (Qle_bool x y); [apply Permutation_refl | ].
  eapply Permutation_trans; [apply perm_skip, IH | apply perm_swap].
Qed.

Lemma sort_perm l : Permutation (sort l) l.
Proof.
  induction l as [ | x l IH]; simpl; [apply perm_nil | ].
  eapply Permutation_trans; [apply insert_sorted_perm | now apply perm_skip].
Qed.

Lemma insert_sorted_sorted x l :
  StronglySorted Qle l -> StronglySorted Qle (insert_sorted x l).
Proof.
  induction 1 as [ | y l Hs IH Hall]; simpl.
  - constructor; constructor.
  - destruct (Qle_bool x y) eqn:E.
    + apply Qle_bool_iff in E. constructor; [now constructor | ].
      constructor; [exact E | ].
      eapply List.Forall_impl; [ | exact Hall].
      intros z Hz. now apply Qle_trans with y.
    + apply Qle_bool_false in E. constructor; [exact IH | ].
      apply (Permutation_Forall (Permutation_sym (insert_sorted_perm x l))).
      constructor; [now apply Qlt_le_weak | exact Hall].
Qed.

Lemma sort_sorted l : StronglySorted Qle (sort l).
Proof.
  induction l as [ | x l IH]; simpl; [constructor | now apply insert_sorted_sorted].
Qed.

Lemma sorted_nth_le (s : list Q) (d : Q) :
  StronglySorted Qle s ->
  forall i j, (i <= j)%nat -> (j < length s)%nat -> (nth i s d <= nth j s d)%Q.
Proof.
  induction 1 as [ | a s Hs IH Hall]; intros i j Hij Hj; simpl in Hj; [lia | ].
  destruct i as [ | i], j as [ | j]; simpl; try lia.
  - apply Qle_refl.
  - rewrite List.Forall_forall in Hall. apply Hall, nth_In. lia.
  - apply IH; lia.
Qed.

(** In a sorted list, the values above the one at position [lo] lie after
    that position. *)
Lemma sorted_count_above (s : list Q) (d T : Q) :
  StronglySorted Qle s ->
  forall lo, (lo < length s)%nat -> (nth lo s d <= T)%Q ->
  (length (List.filter (Qlt_bool T) s) <= length s - S lo)%nat.
Proof.
  induction 1 as [ | a s Hs IH Hall]; intros lo Hlo HT; simpl in Hlo; [lia | ].
  assert (a <= T)%Q as Ha.
  { destruct lo as [ | lo]; [exact HT | ].
    simpl in HT. apply Qle_trans with (nth lo s d); [ | exact HT].
    rewrite List.Forall_forall in Hall. apply Hall, nth_In. lia. }
  cbn [List.filter].
  assert (Qlt_bool T a = false) as ->.
  { apply not_true_iff_false. rewrite Qlt_bool_iff. now apply Qle_not_lt. }
  destruct lo as [ | lo].
  - pose proof (List.filter_length_le (Qlt_bool T) s). simpl. lia.
  - simpl in HT. specialize (IH lo ltac:(lia) HT). simpl. lia.
Qed.

Lemma filter_length_perm {A} (f : A -> bool) (l l' : list A) :
  Permutation l l' -> length (List.filter f l) = length (List.filter f l').
Proof.
  induction 1 as [ | x l l' _ IH | x y l | l l' l'' _ IH1 _ IH2]; simpl.
  - reflexivity.
  - destruct (f x); simpl; now rewrite IH.
  - destruct (f x), (f y); reflexivity.
  - now rewrite IH1.
Qed.

(* ------------------------------------------------------------------ *)
(** ** How many rows a trimming step removes *)

Lemma Qfloor_99 (z : Z) :
  Qfloor (inject_Z z * (99 # 100)) = (z * 99 / 100)%Z.
Proof. reflexivity. Qed.

Lemma valid_cons (v : fval) (vs : list fval) :
  valid (v :: vs) = match v with Some x => x :: valid vs | None => valid vs end.
Proof. reflexivity. Qed.

Lemma count_above_valid (T : Q) (vs : list fval) :
  length (List.filter (fun v => flt (Some T) v) vs)
  = length (List.filter (Qlt_bool T) (valid vs)).
Proof.
  induction vs as [ | v vs IH]; [reflexivity | ].
  rewrite valid_cons. cbn [List.filter].
  destruct v as [x | ]; cbn [flt]; [ | exact IH].
  cbn [List.filter]. destruct (Qlt_bool T x); [ | exact IH].
  cbn [length]. f_equal. exact IH.
Qed.

Lemma length_valid_le (vs : list fval) : (length (valid vs) <= length vs)%nat.
Proof.
  induction vs as [ | v vs IH]; [simpl; lia | ].
  rewrite valid_cons. destruct v; simpl; lia.
Qed.

(** The quantile is not below the sorted value at the position it starts
    from. *)
Lemma quantile_position (s : list Q) (d : Q) (k : nat) :
  StronglySorted Qle s -> length s = S k ->
  let h := (inject_Z (Z.of_nat (S k) - 1) * (99 # 100))%Q in
  let lo := Z.to_nat (Qfloor h) in
  let hi := Nat.min (S lo) (S k - 1) in
  (lo <= k)%nat
  /\ (100 * (k - lo) <= S k + 98)%nat
  /\ (nth lo s d
      <= nth lo s d + (nth hi s d - nth lo s d) * (h - inject_Z (Qfloor h)))%Q.
Proof.
  intros Hs Hk h lo hi.
  assert (Qfloor h = (Z.of_nat k * 99 / 100)%Z) as Hf.
  { unfold h. rewrite Qfloor_99. f_equal. lia. }
  pose proof (Z.div_mod (Z.of_nat k * 99) 100 ltac:(lia)) as Hdm.
  pose proof (Z.mod_pos_bound (Z.of_nat k * 99) 100 ltac:(lia)) as Hmod.
  assert (lo <= k)%nat as Hlo by (unfold lo; rewrite Hf; lia).
  split; [exact Hlo | ]. split; [unfold lo; rewrite Hf; lia | ].
  assert (0 <= h - inject_Z (Qfloor h))%Q as Hg.
  { pose proof (Qfloor_le h). lra. }
  assert (nth lo s d <= nth hi s d)%Q as Hle.
  { apply sorted_nth_le; [exact Hs | unfold hi; lia | unfold hi; lia]. }
  assert (0 <= (nth hi s d - nth lo s d) * (h - inject_Z (Qfloor h)))%Q as Hp.
  { apply Qmult_le_0_compat; [lra | exact Hg]. }
  lra.
Qed.

(** Of [n] values, at most [(n + 98) / 100] lie strictly above their
    99th percentile. *)
Lemma quantile_99_count_above (vs : list fval) :
  (100 * length (List.filter (fun v => flt (quantile (99 # 100) vs) v) vs)
   <= length vs + 98)%nat.
Proof.
  unfold quantile.
  pose proof (sort_sorted (valid vs)) as Hs.
  pose proof (sort_perm (valid vs)) as Hp.
  pose proof (length_valid_le vs) as Hlen.
  destruct (sort (valid vs)) as [ | x0 s] eqn:Es.
  - assert (List.filter (fun v => flt None v) vs = []) as ->; [ | simpl; lia].
    clear. induction vs as [ | v vs IH]; [reflexivity | exact IH].
  - cbv zeta. rewrite count_above_valid.
    rewrite <- (filter_length_perm _ _ _ Hp).
    apply Permutation_length in Hp.
    destruct (quantile_position (x0 :: s) x0 (length s) Hs eq_refl)
      as (Hlo & Hbound & HT).
    cbv zeta in Hlo, Hbound, HT.
    set (lo := Z.to_nat (Qfloor (inject_Z (Z.of_nat (S (length s)) - 1) * (99 # 100))))
      in Hlo, Hbound, HT.
    assert (lo < length (x0 :: s))%nat as Hlt by (simpl; lia).
    pose proof (sorted_count_above (x0 :: s) x0 _ Hs lo Hlt HT) as Hc.
    match goal with
    | |- (100 * ?a <= _)%nat =>
        set (n := a); assert (n <= length (x0 :: s) - S lo)%nat as Ha by exact Hc
    end.
    clearbody n lo. cbn [length] in Ha, Hp. lia.
Qed.

Lemma filter_length_three {A} (b e : A -> bool) (l : list A) :
  (forall x, b x = true -> e x = false) ->
  length l
  = (length (List.filter b l) + length (List.filter e l)
     + length (List.filter (fun x => negb (b x) && negb (e x)) l))%nat.
Proof.
  intros Hbe. induction l as [ | x l IH]; [reflexivity | ].
  cbn [List.filter]. specialize (Hbe x).
  destruct (b x), (e x); cbn [negb andb length];
    first [lia | discriminate (Hbe eq_refl)].
Qed.

Lemma below_not_exceeding c rs r :
  below_threshold c rs r = true -> exceeds_threshold c rs r = false.
Proof.
  unfold below_threshold, exceeds_threshold. intros H.
  apply flt_true in H as (v & t & -> & -> & Hvt). simpl.
  apply not_true_iff_false. rewrite Qlt_bool_iff. intros Htv. lra.
Qed.

Lemma length_filter_map {A B} (f : A -> B) (p : B -> bool) (l : list A) :
  length (List.filter (fun x => p (f x)) l) = length (List.filter p (List.map f l)).
Proof.
  induction l as [ | x l IH]; [reflexivity | ].
  cbn [List.map List.filter]. destruct (p (f x)); cbn [length]; now rewrite IH.
Qed.

(** C3, as the code has it.  One trimming step removes the rows whose
    reading exceeds the threshold and the rows whose reading is the
    threshold itself or is missing.  The rows that exceed it are at most one
    hundredth of the rows there, rounded up: a hundred times their number is
    at most the number of rows plus 98. *)
Theorem trim_column_removal_bound (df : frame) (c : string) (t : dtype) :
  col_dtype df c = Some t -> is_numeric t = true ->
  exists df',
    trim_column df c = Ok df'
    /\ length (rows df)
       = (length (rows df')
          + length (List.filter (exceeds_threshold c (rows df)) (rows df))
          + length (List.filter (at_threshold_or_missing c (rows df)) (rows df)))%nat
    /\ (100 * length (List.filter (exceeds_threshold c (rows df)) (rows df))
        <= length (rows df) + 98)%nat.
Proof.
  intros Hc Ht. eexists. split; [apply (trim_column_present df c t Hc Ht) | ].
  cbn [rows]. split.
  - apply filter_length_three. apply below_not_exceeding.
  - unfold exceeds_threshold, threshold, column_values.
    rewrite (length_filter_map (reading c)
               (fun v => flt (quantile (99 # 100) (List.map (reading c) (rows df))) v)).
    rewrite <- (length_map (reading c) (rows df)).
    apply quantile_99_count_above.
Qed.

Lemma trim_column_removal_bound_witness :
  exists df',
    trim_column sample_three "PM2.5" = Ok df'
    /\ length (rows sample_three)
       = (length (rows df')
          + length (List.filter (exceeds_threshold "PM2.5" (rows sample_three))
                      (rows sample_three))
          + length (List.filter (at_threshold_or_missing "PM2.5" (rows sample_three))
                      (rows sample_three)))%nat
    /\ (100 * length (List.filter (exceeds_threshold "PM2.5" (rows sample_three))
                        (rows sample_three))
        <= length (rows sample_three) + 98)%nat.
Proof.
  apply (trim_column_removal_bound sample_three "PM2.5" DFloat); reflexivity.
Defined.

(** C3 as stated fails: of three rows with readings 1, 2 and 3 the step
    removes one, a third of them. *)
Lemma one_row_of_three_removed :
  ~ (forall df c df',
        trim_column df c = Ok df' ->
        (100 * (length (rows df) - length (rows df')) <= length (rows df))%nat).
Proof.
  intros H.
  assert (exists df', trim_column sample_three "PM2.5" = Ok df'
                      /\ length (rows df') = 2%nat) as (df' & E & El)
    by (vm_compute; eexists; split; reflexivity).
  specialize (H _ _ _ E). rewrite El in H. simpl in H. lia.
Qed.

(* ------------------------------------------------------------------ *)
(** ** Timestamps of the daily frame *)

Lemma to_datetime_cell_cases parse c :
  (exists t, to_datetime_cell parse c = Stamp t) \/ to_datetime_cell parse c = NaT.
Proof.
  unfold to_datetime_cell. destruct (isna c); [now right | ].
  destruct (parse c) as [t | ]; [left; now exists t | now right].
Qed.

Lemma assign_datetime_absent parse df :
  has_column df "Datetime" = false ->
  assign_datetime parse df = setitem_none df "Datetime".
Proof. intros H. unfold assign_datetime, to_datetime, df_get. now rewrite H. Qed.

Lemma col_dtype_setitem_none df c : col_dtype (setitem_none df c) c = Some DObject.
Proof. unfold col_dtype, setitem_none. simpl. now rewrite find_set_dtype_eq. Qed.

Lemma dt_not_datetime df c field t :
  col_dtype df c = Some t -> t <> DDatetime ->
  dt df c field = Err (AttributeError dt_message).
Proof.
  intros Hc Ht. unfold dt, getitem, has_column. rewrite Hc.
  cbn [mbind result_bind]. now destruct t.
Qed.

Lemma filter_none_cells c (rs : list (gmap string cell)) :
  List.filter (fun r => negb (isna (cell_at c r)))
    (List.map (fun r => <[c := PyNone]> r) rs) = [].
Proof.
  induction rs as [ | r rs IH]; [reflexivity | ].
  cbn [List.map List.filter]. now rewrite cell_at_insert_eq.
Qed.

(** C9, what the code does without a timestamp column.  Lines 40-41 go
    through and drop every row; line 42 then raises AttributeError, because
    the column that was written holds None and no datetimes. *)
Theorem derive_calendar_without_timestamps (parse : cell -> option timestamp) (df : frame) :
  has_column df "Datetime" = false ->
  (exists d, dropna (assign_datetime parse df) "Datetime" = Ok d /\ rows d = [])
  /\ derive_calendar parse df = Err (AttributeError dt_message).
Proof.
  intros H. unfold derive_calendar. rewrite (assign_datetime_absent parse df H).
  assert (dropna (setitem_none df "Datetime") "Datetime"
          = Ok {| columns := columns (setitem_none df "Datetime"); rows := [] |}) as Hd.
  { unfold dropna, has_column. rewrite col_dtype_setitem_none.
    f_equal. f_equal. apply filter_none_cells. }
  split; [eexists; split; [exact Hd | reflexivity] | ].
  rewrite Hd. cbn [mbind result_bind].
  rewrite (dt_not_datetime _ "Datetime" ts_year DObject); [reflexivity | | discriminate].
  apply col_dtype_setitem_none.
Qed.

Lemma derive_calendar_without_timestamps_witness :
  (exists d, dropna (assign_datetime sample_parse sample_dated) "Datetime" = Ok d
             /\ rows d = [])
  /\ derive_calendar sample_parse sample_dated = Err (AttributeError dt_message).
Proof.
  apply (derive_calendar_without_timestamps sample_parse sample_dated). reflexivity.
Defined.

Lemma has_column_true_dtype df c :
  has_column df c = true -> exists t, col_dtype df c = Some t.
Proof. unfold has_column. destruct (col_dtype df c) as [t | ]; [eauto | discriminate]. Qed.

Lemma getitem_ok df c :
  has_column df c = true -> getitem df c = Ok (List.map (cell_at c) (rows df)).
Proof. intros H. unfold getitem. now rewrite H. Qed.

(** The rows of the daily frame after lines 40-48. *)
Lemma derive_calendar_rows (parse : cell -> option timestamp) (df : frame) :
  has_column df "Datetime" = true ->
  exists df',
    derive_calendar parse df = Ok df'
    /\ rows df' = omap (calendar_row parse) (rows df)
    /\ (forall c, c <> "Datetime" -> c <> "Year" -> c <> "Month" -> c <> "Season" ->
                  col_dtype df' c = col_dtype df c).
Proof.
  intros Hc. unfold derive_calendar. rewrite (assign_datetime_rows parse df Hc).
  set (d := fun r => to_datetime_cell parse (cell_at "Datetime" r)).
  set (df1 := setitem df "Datetime" DDatetime (List.map d (rows df))).
  assert (rows df1 = List.map (fun r => <["Datetime" := d r]> r) (rows df)) as R1
    by apply setitem_rows.
  assert (has_column df1 "Datetime" = true) as C1 by apply has_column_setitem_eq.
  unfold dropna. rewrite C1.
  cbn [mbind result_bind].
  set (df2 := {| columns := columns df1;
                 rows := List.filter (fun r => negb (isna (cell_at "Datetime" r))) (rows df1) |}).
  assert (col_dtype df2 "Datetime" = Some DDatetime) as T2
    by apply (col_dtype_setitem_eq df "Datetime").
  assert (has_column df2 "Datetime" = true) as C2
    by (unfold has_column; now rewrite T2).
  rewrite (dt_ok df2 "Datetime" ts_year C2 T2). cbn [mbind result_bind].
  match goal with
  | |- context [setitem df2 "Year" ?t (List.map ?h (rows df2))] =>
      set (ty := t); set (hy := h)
  end.
  set (df3 := setitem df2 "Year" ty (List.map hy (rows df2))).
  assert (col_dtype df3 "Datetime" = Some DDatetime) as T3.
  { unfold df3. rewrite col_dtype_setitem_ne by discriminate. exact T2. }
  assert (has_column df3 "Datetime" = true) as C3
    by (unfold has_column; now rewrite T3).
  rewrite (dt_ok df3 "Datetime" ts_month C3 T3). cbn [mbind result_bind].
  match goal with
  | |- context [setitem df3 "Month" ?t (List.map ?h (rows df3))] =>
      set (tm := t); set (hm := h)
  end.
  set (df4 := setitem df3 "Month" tm (List.map hm (rows df3))).
  rewrite (getitem_ok df4 "Month") by apply has_column_setitem_eq.
  cbn [mbind result_bind]. rewrite List.map_map.
  eexists. split; [reflexivity | ]. split.
  - rewrite setitem_rows. unfold df4. rewrite setitem_rows. unfold df3.
    rewrite setitem_rows. cbn [rows df2]. rewrite R1. clear.
    induction (rows df) as [ | r rs IH]; [reflexivity | ].
    cbn [List.map List.filter omap list_omap]. rewrite cell_at_insert_eq.
    unfold calendar_row at 1. fold (d r).
    destruct (to_datetime_cell_cases parse (cell_at "Datetime" r)) as [[t Ht] | Ht];
      fold (d r) in Ht; rewrite Ht; cbn [isna negb].
    + cbn [List.map]. rewrite <- IH. f_equal.
      unfold hm, hy.
      rewrite !cell_at_insert_eq.
      rewrite (cell_at_insert_ne "Year" "Datetime") by discriminate.
      rewrite !cell_at_insert_eq. reflexivity.
    + exact IH.
  - intros c H1 H2 H3 H4.
    rewrite col_dtype_setitem_ne by congruence. unfold df4.
    rewrite col_dtype_setitem_ne by congruence. unfold df3.
    rewrite col_dtype_setitem_ne by congruence.
    change (col_dtype df2 c) with (col_dtype df1 c). unfold df1.
    now rewrite col_dtype_setitem_ne by congruence.
Qed.

(* ------------------------------------------------------------------ *)
(** ** A run without the hourly file *)

Lemma normalize_city_ok (py_str : cell -> string) (df : frame) :
  exists df', normalize_city py_str df = Ok df'.
Proof.
  unfold normalize_city, getitem.
  destruct (negb (df_empty df) && has_column df "City") eqn:E; [ | eauto].
  apply andb_true_iff in E as [_ ->]. cbn [mbind result_bind]. eauto.
Qed.

Lemma derive_hour_without_timestamps (parse : cell -> option timestamp) (df : frame) :
  has_column df "Datetime" = false ->
  derive_hour parse df = Err (AttributeError dt_message).
Proof.
  intros H. unfold derive_hour. rewrite (assign_datetime_absent parse df H).
  rewrite (dt_not_datetime _ "Datetime" ts_hour DObject); [reflexivity | | discriminate].
  apply col_dtype_setitem_none.
Qed.

Lemma derive_calendar_outcome (parse : cell -> option timestamp) (df : frame) :
  (exists df', derive_calendar parse df = Ok df')
  \/ derive_calendar parse df = Err (AttributeError dt_message).
Proof.
  destruct (has_column df "Datetime") eqn:E.
  - left. destruct (derive_calendar_rows parse df E) as (df' & H & _). eauto.
  - right. unfold derive_calendar. rewrite (assign_datetime_absent parse df E).
    unfold dropna, has_column. rewrite col_dtype_setitem_none.
    cbn [mbind result_bind].
    rewrite (dt_not_datetime _ "Datetime" ts_year DObject); [reflexivity | | discriminate].
    apply (col_dtype_setitem_none df "Datetime").
Qed.

Lemma preprocess_without_hourly
      (parse : cell -> option timestamp) (py_str : cell -> string) (d s : frame) :
  preprocess parse py_str {| city_day := d; city_hour := empty_frame; station_day := s |}
  = Err (AttributeError dt_message).
Proof.
  unfold preprocess. cbn [city_day city_hour station_day].
  destruct (normalize_city_ok py_str d) as (d' & ->). cbn [mbind result_bind].
  change (normalize_city py_str empty_frame) with (@Ok frame empty_frame).
  cbn [mbind result_bind].
  destruct (normalize_city_ok py_str s) as (s' & ->). cbn [mbind result_bind].
  destruct (derive_calendar_outcome parse d') as [(d'' & ->) | ->];
    cbn [mbind result_bind]; [ | reflexivity].
  now rewrite (derive_hour_without_timestamps parse empty_frame eq_refl).
Qed.

(** C5, what the code does without the hourly file.  The missing file is
    reported and read as an empty frame, and the run then stops with
    AttributeError: line 51 asks the empty frame for the hour of a column
    that holds no datetimes. *)
Theorem run_aborts_without_hourly_file
        (parse : cell -> option timestamp) (py_str : cell -> string)
        (disk : string -> option frame)
        (sort_values : list (string * fval) -> list (string * fval)) :
  disk "city_hour.csv" = None ->
  In (FileNotFound "city_hour.csv") (fst (run parse py_str disk sort_values))
  /\ snd (run parse py_str disk sort_values) = Err (AttributeError dt_message).
Proof.
  intros H. unfold run, load, safe_read. rewrite H.
  destruct (disk "city_day.csv") as [d | ], (disk "station_day.csv") as [s | ];
    cbn [fst snd app];
    (split; [simpl; tauto | ]);
    now rewrite preprocess_without_hourly.
Qed.

Lemma run_aborts_without_hourly_file_witness :
  In (FileNotFound "city_hour.csv")
     (fst (run sample_parse sample_str daily_only sample_sort))
  /\ snd (run sample_parse sample_str daily_only sample_sort)
     = Err (AttributeError dt_message).
Proof.
  apply (run_aborts_without_hourly_file sample_parse sample_str daily_only sample_sort).
  reflexivity.
Defined.

(** The next statement on the hourly frame would stop the run as well:
    line 147 reads the City column, which an empty frame does not have. *)
Lemma hourly_avg_without_city (df : frame) :
  has_column df "City" = false -> hourly_avg df = Err (KeyError "City").
Proof. intros H. unfold hourly_avg, where_equal, getitem. now rewrite H. Qed.

(* ------------------------------------------------------------------ *)
(** ** Every trimming step takes a row *)

Lemma sorted_count_below (s : list Q) (d T : Q) :
  StronglySorted Qle s ->
  forall hi, (hi < length s)%nat -> (T <= nth hi s d)%Q ->
  (length (List.filter (fun x => Qlt_bool x T) s) <= hi)%nat.
Proof.
  induction 1 as [ | a s Hs IH Hall]; intros hi Hhi HT; simpl in Hhi; [lia | ].
  cbn [List.filter]. destruct hi as [ | hi].
  - simpl in HT.
    assert (Qlt_bool a T = false) as ->
        by (apply not_true_iff_false; rewrite Qlt_bool_iff; lra).
    assert (List.filter (fun x => Qlt_bool x T) s = []) as ->; [ | simpl; lia].
    clear IH Hs Hhi. induction Hall as [ | b s Hb _ IHs]; [reflexivity | ].
    cbn [List.filter].
    assert (Qlt_bool b T = false) as ->
        by (apply not_true_iff_false; rewrite Qlt_bool_iff; lra).
    exact IHs.
  - simpl in HT. specialize (IH hi ltac:(lia) HT).
    destruct (Qlt_bool a T); simpl; lia.
Qed.

Lemma quantile_position_upper (s : list Q) (d : Q) (k : nat) :
  StronglySorted Qle s -> length s = S k ->
  let h := (inject_Z (Z.of_nat (S k) - 1) * (99 # 100))%Q in
  let lo := Z.to_nat (Qfloor h) in
  let hi := Nat.min (S lo) (S k - 1) in
  (hi <= k)%nat
  /\ (nth lo s d + (nth hi s d - nth lo s d) * (h - inject_Z (Qfloor h))
      <= nth hi s d)%Q.
Proof.
  intros Hs Hk h lo hi.
  destruct (quantile_position s d k Hs Hk) as (Hlo & _ & _).
  fold h lo in Hlo.
  split; [unfold hi; lia | ].
  assert (0 <= 1 - (h - inject_Z (Qfloor h)))%Q as Hg.
  { pose proof (Qlt_floor h) as Hf.
    rewrite inject_Z_plus in Hf. change (inject_Z 1) with 1%Q in Hf. lra. }
  assert (nth lo s d <= nth hi s d)%Q as Hle.
  { apply sorted_nth_le; [exact Hs | unfold hi; lia | unfold hi; lia]. }
  assert (0 <= (nth hi s d - nth lo s d) * (1 - (h - inject_Z (Qfloor h))))%Q as Hp.
  { apply Qmult_le_0_compat; [lra | exact Hg]. }
  lra.
Qed.

Lemma count_below_valid (T : Q) (vs : list fval) :
  length (List.filter (fun v => flt v (Some T)) vs)
  = length (List.filter (fun x => Qlt_bool x T) (valid vs)).
Proof.
  induction vs as [ | v vs IH]; [reflexivity | ].
  rewrite valid_cons. cbn [List.filter].
  destruct v as [x | ]; cbn [flt]; [ | exact IH].
  cbn [List.filter]. destruct (Qlt_bool x T); [ | exact IH].
  cbn [length]. f_equal. exact IH.
Qed.

(** Of values that are not all missing, fewer lie strictly below their 99th
    percentile than there are values. *)
Lemma quantile_99_count_below (vs : list fval) :
  vs <> [] ->
  (length (List.filter (fun v => flt v (quantile (99 # 100) vs)) vs) < length vs)%nat.
Proof.
  intros Hne. unfold quantile.
  pose proof (sort_sorted (valid vs)) as Hs.
  pose proof (sort_perm (valid vs)) as Hp.
  pose proof (length_valid_le vs) as Hlen.
  destruct (sort (valid vs)) as [ | x0 s] eqn:Es.
  - assert (List.filter (fun v => flt v None) vs = []) as ->.
    { clear. induction vs as [ | v vs IH]; [reflexivity | ].
      cbn [List.filter]. now destruct v. }
    destruct vs; [contradiction | simpl; lia].
  - cbv zeta. rewrite count_below_valid.
    rewrite <- (filter_length_perm _ _ _ Hp).
    apply Permutation_length in Hp.
    destruct (quantile_position_upper (x0 :: s) x0 (length s) Hs eq_refl) as (Hhi & HT).
    cbv zeta in Hhi, HT.
    set (hi := Nat.min (S (Z.to_nat (Qfloor (inject_Z (Z.of_nat (S (length s)) - 1)
                                             * (99 # 100)))))
                       (S (length s) - 1)) in Hhi, HT.
    assert (hi < length (x0 :: s))%nat as Hlt by (simpl; lia).
    pose proof (sorted_count_below (x0 :: s) x0 _ Hs hi Hlt HT) as Hc.
    match goal with
    | |- (?a < _)%nat => set (n := a); assert (n <= hi)%nat as Ha by exact Hc
    end.
    clearbody n hi. cbn [length] in Hp. lia.
Qed.

Lemma length_trim_rows_lt rs c :
  rs <> [] -> (length (trim_rows rs c) < length rs)%nat.
Proof.
  intros Hne. unfold trim_rows, below_threshold, threshold, column_values.
  rewrite (length_filter_map (reading c)
             (fun v => flt v (quantile (99 # 100) (List.map (reading c) rs)))).
  rewrite <- (length_map (reading c) rs).
  apply quantile_99_count_below. now destruct rs.
Qed.

Lemma length_trim_rows_le rs c : (length (trim_rows rs c) <= length rs - 1)%nat.
Proof.
  destruct rs as [ | r rs]; [simpl; lia | ].
  pose proof (length_trim_rows_lt (r :: rs) c ltac:(discriminate)). lia.
Qed.

Lemma length_fold_trim_rows cols : forall rs,
  (length (List.fold_left trim_rows cols rs) <= length rs - length cols)%nat.
Proof.
  induction cols as [ | c cols IH]; intros rs; cbn [List.fold_left length]; [lia | ].
  specialize (IH (trim_rows rs c)). pose proof (length_trim_rows_le rs c). lia.
Qed.

Lemma filter_sublist {A} (f : A -> bool) (l : list A) : sublist (List.filter f l) l.
Proof.
  induction l as [ | x l IH]; [constructor | ].
  cbn [List.filter]. destruct (f x); now constructor.
Qed.

Lemma fold_trim_present_sublist df cols : forall rs,
  sublist (List.fold_left (trim_present df) cols rs) rs.
Proof.
  induction cols as [ | c cols IH]; intros rs; cbn [List.fold_left]; [reflexivity | ].
  etransitivity; [apply IH | ].
  unfold trim_present. destruct (has_column df c); [apply filter_sublist | reflexivity].
Qed.

(** Lines 57-58.  On a frame that has rows, the trimming of a numeric
    column always removes at least one row: the largest reading is never
    strictly below the 99th percentile. *)
Theorem trim_column_removes_a_row (df : frame) (c : string) (t : dtype) :
  col_dtype df c = Some t -> is_numeric t = true -> rows df <> [] ->
  exists df',
    trim_column df c = Ok df'
    /\ (length (rows df') < length (rows df))%nat.
Proof.
  intros Hc Ht Hne. eexists. split; [apply (trim_column_present df c t Hc Ht) | ].
  cbn [rows]. now apply length_trim_rows_lt.
Qed.

Lemma trim_column_removes_a_row_witness :
  exists df',
    trim_column sample_one "PM10" = Ok df'
    /\ (length (rows df') < length (rows sample_one))%nat.
Proof.
  apply (trim_column_removes_a_row sample_one "PM10" DFloat);
    [reflexivity | reflexivity | discriminate].
Defined.

(** Lines 56-58.  With all ten pollutant columns there, the loop removes at
    least ten rows or all of them: a daily frame of ten rows or fewer is
    empty after trimming. *)
Theorem trim_outliers_removes_ten_rows (df : frame) :
  numeric_columns df pollutants = true ->
  exists df',
    trim_outliers df = Ok df'
    /\ (length (rows df') <= length (rows df) - 10)%nat.
Proof.
  intros H. eexists.
  split; [apply (trim_loop pollutants df), numeric_columns_present, H | ].
  cbn [rows]. rewrite (fold_trim_present_all df pollutants _ H).
  apply (length_fold_trim_rows pollutants).
Qed.

Lemma trim_outliers_removes_ten_rows_witness :
  exists df',
    trim_outliers sample_three = Ok df'
    /\ (length (rows df') <= length (rows sample_three) - 10)%nat.
Proof.
  apply (trim_outliers_removes_ten_rows sample_three). vm_compute. reflexivity.
Defined.

(** Lines 56-58.  Trimming only removes rows: the rows of the result are
    rows of the input, unchanged and in their order, whichever pollutant
    columns the frame has. *)
Theorem trim_outliers_sublist (df : frame) :
  present_numeric df pollutants = true ->
  exists df',
    trim_outliers df = Ok df'
    /\ columns df' = columns df
    /\ sublist (rows df') (rows df).
Proof.
  intros H. eexists. split; [apply (trim_loop pollutants df H) | ].
  split; [reflexivity | ]. apply fold_trim_present_sublist.
Qed.

Lemma trim_outliers_sublist_witness :
  exists df',
    trim_outliers sample_daily = Ok df'
    /\ columns df' = columns sample_daily
    /\ sublist (rows df') (rows sample_daily).
Proof. apply (trim_outliers_sublist sample_daily). vm_compute. reflexivity. Defined.

(* ------------------------------------------------------------------ *)
(** ** Further properties of the preprocessing *)

Lemma calendar_row_fields parse r r' :
  calendar_row parse r = Some r' ->
  exists t,
    to_datetime_cell parse (cell_at "Datetime" r) = Stamp t
    /\ cell_at "Datetime" r' = Stamp t
    /\ cell_at "Year" r' = Int (ts_year t)
    /\ cell_at "Month" r' = Int (ts_month t)
    /\ cell_at "Season" r' = Str (season (ts_month t)).
Proof.
  unfold calendar_row.
  destruct (to_datetime_cell parse (cell_at "Datetime" r)) as [ | | | | t | | ];
    try discriminate.
  intros [= <-]. exists t. split; [reflexivity | ].
  rewrite cell_at_insert_eq.
  rewrite !(cell_at_insert_ne "Season") by discriminate.
  rewrite cell_at_insert_eq.
  rewrite !(cell_at_insert_ne "Month") by discriminate.
  rewrite cell_at_insert_eq.
  rewrite (cell_at_insert_ne "Year") by discriminate.
  now rewrite cell_at_insert_eq.
Qed.

(** Lines 40-48.  In a daily frame with a Datetime column the rows whose
    timestamp is missing or does not parse are dropped and the other rows
    are kept in order; every kept row holds the parsed timestamp, its year,
    its month and the season of that month. *)
Theorem derive_calendar_keeps_parsed_rows (parse : cell -> option timestamp) (df : frame) :
  has_column df "Datetime" = true ->
  exists df',
    derive_calendar parse df = Ok df'
    /\ rows df' = omap (calendar_row parse) (rows df)
    /\ Forall (fun r' => exists t,
                   cell_at "Datetime" r' = Stamp t
                   /\ cell_at "Year" r' = Int (ts_year t)
                   /\ cell_at "Month" r' = Int (ts_month t)
                   /\ cell_at "Season" r' = Str (season (ts_month t)))
         (rows df').
Proof.
  intros H. destruct (derive_calendar_rows parse df H) as (df' & E & R & _).
  exists df'. split; [exact E | ]. split; [exact R | ].
  rewrite R. clear. induction (rows df) as [ | r rs IH]; [constructor | ].
  cbn [omap list_omap].
  destruct (calendar_row parse r) as [r' | ] eqn:Er; [ | exact IH].
  constructor; [ | exact IH].
  destruct (calendar_row_fields parse r r' Er) as (t & _ & Hf). now exists t.
Qed.

Lemma derive_calendar_keeps_parsed_rows_witness :
  exists df',
    derive_calendar sample_parse sample_hourly = Ok df'
    /\ rows df' = omap (calendar_row sample_parse) (rows sample_hourly)
    /\ Forall (fun r' => exists t,
                   cell_at "Datetime" r' = Stamp t
                   /\ cell_at "Year" r' = Int (ts_year t)
                   /\ cell_at "Month" r' = Int (ts_month t)
                   /\ cell_at "Season" r' = Str (season (ts_month t)))
         (rows df').
Proof.
  apply (derive_calendar_keeps_parsed_rows sample_parse sample_hourly). reflexivity.
Defined.

(** Lines 50-51.  An hourly frame without a Datetime column, empty or not,
    stops the run with AttributeError: the column is written as None and
    has no hour to give. *)
Theorem derive_hour_needs_timestamps (parse : cell -> option timestamp) (df : frame) :
  has_column df "Datetime" = false ->
  derive_hour parse df = Err (AttributeError dt_message).
Proof. apply derive_hour_without_timestamps. Qed.

Lemma derive_hour_needs_timestamps_witness :
  derive_hour sample_parse sample_dated = Err (AttributeError dt_message).
Proof. apply (derive_hour_needs_timestamps sample_parse sample_dated). reflexivity. Defined.

(** Line 54.  A daily frame that lacks one of the ten pollutant columns
    stops the run with KeyError on the first label that is absent. *)
Theorem impute_missing_column (df : frame) (c : string) :
  first_missing df pollutants = Some c -> impute df = Err (KeyError c).
Proof.
  unfold impute, first_missing.
  induction pollutants as [ | c0 cols IH]; [discriminate | ].
  cbn [List.find require_columns].
  destruct (has_column df c0); cbn [negb].
  - intros H. specialize (IH H).
    destruct (require_columns df cols) as [[] | e] eqn:E; [ | exact IH].
    cbn [mbind result_bind] in IH |- *. exfalso.
    clear IH. revert H E. clear.
    induction cols as [ | c1 cols IH]; [discriminate | ].
    cbn [List.find require_columns].
    destruct (has_column df c1); cbn [negb]; [exact IH | discriminate].
  - now intros [= <-].
Qed.

Lemma impute_missing_column_witness :
  impute sample_daily = Err (KeyError "PM10").
Proof. apply (impute_missing_column sample_daily "PM10"). reflexivity. Defined.

(** Lines 147-148.  The per-hour mean needs the columns City, Hour and
    PM2.5 of the hourly frame, in this order: the first one that is absent is
    reported by KeyError. *)
Theorem hourly_avg_missing_column (df : frame) (c : string) :
  first_missing df ["City"; "Hour"; "PM2.5"] = Some c ->
  hourly_avg df = Err (KeyError c).
Proof.
  unfold first_missing, hourly_avg, where_equal, getitem. cbn [List.find].
  destruct (has_column df "City") eqn:E1; cbn [negb mbind result_bind];
    [ | now intros [= <-]].
  unfold groupby_mean, numeric_column, getitem, df_select. cbn [columns].
  change (has_column {| columns := columns df; rows := ?r |} ?x) with (has_column df x).
  destruct (has_column df "Hour") eqn:E2; cbn [negb mbind result_bind];
    [ | now intros [= <-]].
  destruct (has_column df "PM2.5") eqn:E3; cbn [negb mbind result_bind];
    [discriminate | now intros [= <-]].
Qed.

Lemma hourly_avg_missing_column_witness :
  hourly_avg sample_hourly = Err (KeyError "Hour").
Proof. apply (hourly_avg_missing_column sample_hourly "Hour"). reflexivity. Defined.

(** Lines 44-48.  A month number outside 1..12 falls into the last branch
    of the season function and is Autumn. *)
Theorem season_outside_year (m : Z) :
  (m < 1 \/ 12 < m)%Z -> season m = "Autumn".
Proof.
  intros H. unfold season. cbn [existsb].
  repeat match goal with
    | |- context [Z.eqb m ?k] => destruct (Z.eqb_spec m k); [lia | ]
    end.
  reflexivity.
Qed.

Lemma season_outside_year_witness : season 0 = "Autumn".
Proof. apply (season_outside_year 0). lia. Defined.

(* ------------------------------------------------------------------ *)
(** ** The normalized city is a stable grouping key *)

Lemma to_lower_to_lower a : to_lower (to_lower a) = to_lower a.
Proof. by_enumeration a. Qed.

Lemma to_upper_to_upper a : to_upper (to_upper a) = to_upper a.
Proof. by_enumeration a. Qed.

Lemma to_upper_to_lower a : to_upper (to_lower a) = to_upper a.
Proof. by_enumeration a. Qed.

Lemma lstrip_id s : leading_space s = false -> lstrip s = s.
Proof. destruct s as [ | a s]; simpl; [reflexivity | now intros ->]. Qed.

Lemma rstrip_id s : trailing_space s = false -> rstrip s = s.
Proof.
  induction s as [ | a s IH]; [reflexivity | ].
  destruct s as [ | b s].
  - simpl. now intros ->.
  - intros H. change (trailing_space (String a (String b s)))
      with (trailing_space (String b s)) in H.
    cbn [rstrip] in IH |- *. now rewrite (IH H).
Qed.

Lemma strip_id s : normalized s = true -> strip s = s.
Proof.
  unfold normalized. rewrite !andb_true_iff, !negb_true_iff. intros [[Hl Ht] _].
  unfold strip. rewrite (lstrip_id s Hl). now apply rstrip_id.
Qed.

Lemma title_from_idempotent p s : title_from p (title_from p s) = title_from p s.
Proof.
  revert p. induction s as [ | a s IH]; intros p; [reflexivity | ].
  cbn [title_from]. destruct p.
  - now rewrite to_lower_to_lower, is_cased_to_lower, IH.
  - now rewrite to_upper_to_upper, is_cased_to_upper, IH.
Qed.

Lemma title_strip_twice (s : string) :
  title (strip (title (strip s))) = title (strip s).
Proof.
  rewrite (strip_id (title (strip s))) by apply normalized_title_strip.
  apply title_from_idempotent.
Qed.

(** Lines 36-38.  Normalizing a text that is already normalized changes
    nothing: strip and title together are idempotent, and the text they
    give is normalized. *)
Theorem title_strip_idempotent (s : string) :
  title (strip (title (strip s))) = title (strip s)
  /\ normalized (title (strip s)) = true.
Proof. split; [apply title_strip_twice | apply normalized_title_strip]. Qed.

Lemma lstrip_lowercase s : lstrip (lowercase s) = lowercase (lstrip s).
Proof.
  induction s as [ | a s IH]; [reflexivity | ].
  cbn [lowercase lstrip]. rewrite is_space_to_lower.
  destruct (is_space a); [exact IH | reflexivity].
Qed.

Lemma rstrip_lowercase s : rstrip (lowercase s) = lowercase (rstrip s).
Proof.
  induction s as [ | a s IH]; [reflexivity | ].
  cbn [lowercase rstrip]. rewrite IH, is_space_to_lower.
  destruct (rstrip s); cbn [lowercase]; [now destruct (is_space a) | reflexivity].
Qed.

Lemma title_from_lowercase p s : title_from p (lowercase s) = title_from p s.
Proof.
  revert p. induction s as [ | a s IH]; intros p; [reflexivity | ].
  cbn [lowercase title_from]. rewrite is_cased_to_lower, IH.
  destruct p; now rewrite ?to_lower_to_lower, ?to_upper_to_lower.
Qed.

(** Lines 36-38.  Two spellings of a city that differ only in the case of
    their letters get the same normalized text, and so the same group. *)
Theorem normalized_city_ignores_case (s1 s2 : string) :
  lowercase s1 = lowercase s2 -> title (strip s1) = title (strip s2).
Proof.
  intros H.
  assert (forall s, title (strip s) = title (strip (lowercase s))) as E.
  { intros s. unfold title, strip.
    now rewrite lstrip_lowercase, rstrip_lowercase, title_from_lowercase. }
  now rewrite (E s1), (E s2), H.
Qed.

Lemma normalized_city_ignores_case_witness :
  title (strip " NEW delhi") = title (strip " new Delhi").
Proof. apply (normalized_city_ignores_case " NEW delhi" " new Delhi"). reflexivity. Defined.

Lemma normalize_city_eq (py_str : cell -> string) (df : frame) :
  df_empty df = false -> has_column df "City" = true ->
  normalize_city py_str df
  = Ok (setitem df "City" DObject
          (List.map (fun r => Str (title (strip (astype_str py_str (cell_at "City" r)))))
             (rows df))).
Proof.
  intros He Hc. unfold normalize_city, getitem. rewrite He, Hc.
  cbn [negb andb mbind result_bind]. now rewrite List.map_map.
Qed.

Lemma normalize_city_skip (py_str : cell -> string) (df : frame) :
  negb (df_empty df) && has_column df "City" = false ->
  normalize_city py_str df = Ok df.
Proof. intros H. unfold normalize_city. now rewrite H. Qed.

Lemma frame_eq (d1 d2 : frame) :
  columns d1 = columns d2 -> rows d1 = rows d2 -> d1 = d2.
Proof. destruct d1, d2. simpl. now intros -> ->. Qed.

Lemma set_dtype_twice c t cols : set_dtype c t (set_dtype c t cols) = set_dtype c t cols.
Proof.
  induction cols as [ | [c' t'] cols IH]; simpl.
  - now rewrite String.eqb_refl.
  - destruct (String.eqb c' c) eqn:E; simpl.
    + now rewrite String.eqb_refl.
    + now rewrite E, IH.
Qed.

Lemma set_dtype_not_nil c t cols : set_dtype c t cols <> [].
Proof.
  destruct cols as [ | [c' t'] cols]; simpl; [discriminate | ].
  destruct (String.eqb c' c); discriminate.
Qed.

Lemma code_to_lower_ascii a : (code (to_lower a) <? 128)%N = (code a <? 128)%N.
Proof. by_enumeration a. Qed.

Lemma code_to_upper_ascii a : (code (to_upper a) <? 128)%N = (code a <? 128)%N.
Proof. by_enumeration a. Qed.

Lemma is_ascii_lstrip s : is_ascii s = true -> is_ascii (lstrip s) = true.
Proof.
  induction s as [ | a s IH]; [reflexivity | ].
  cbn [lstrip]. destruct (is_space a); [ | trivial].
  cbn [is_ascii]. intros H. apply andb_true_iff in H as [_ H]. now apply IH.
Qed.

Lemma is_ascii_rstrip s : is_ascii s = true -> is_ascii (rstrip s) = true.
Proof.
  induction s as [ | a s IH]; [reflexivity | ].
  cbn [is_ascii rstrip]. intros H. apply andb_true_iff in H as [Ha H].
  specialize (IH H). destruct (rstrip s) as [ | b t].
  - destruct (is_space a); [reflexivity | ]. cbn [is_ascii]. now rewrite Ha.
  - cbn [is_ascii] in IH |- *. now rewrite Ha, IH.
Qed.

Lemma is_ascii_title_from p s : is_ascii (title_from p s) = is_ascii s.
Proof.
  revert p. induction s as [ | a s IH]; intros p; [reflexivity | ].
  cbn [title_from is_ascii]. rewrite IH.
  destruct p; now rewrite ?code_to_lower_ascii, ?code_to_upper_ascii.
Qed.

Lemma is_ascii_title_strip s : is_ascii s = true -> is_ascii (title (strip s)) = true.
Proof.
  intros H. unfold title, strip. rewrite is_ascii_title_from.
  now apply is_ascii_rstrip, is_ascii_lstrip.
Qed.

(** Lines 36-38.  On a frame whose city texts are ASCII, normalizing the
    city column a second time gives the same frame again, and its city
    texts are ASCII as before. *)
Theorem normalize_city_idempotent (py_str : cell -> string) (df df' : frame) :
  ascii_cities py_str df = true ->
  normalize_city py_str df = Ok df' ->
  normalize_city py_str df' = Ok df' /\ ascii_cities py_str df' = true.
Proof.
  intros Ha.
  destruct (negb (df_empty df) && has_column df "City") eqn:G.
  - apply andb_true_iff in G as [He Hc]. apply negb_true_iff in He.
    rewrite (normalize_city_eq py_str df He Hc). intros [= <-].
    set (f := fun r => Str (title (strip (astype_str py_str (cell_at "City" r))))).
    set (df1 := setitem df "City" DObject (List.map f (rows df))).
    assert (rows df1 = List.map (fun r => <["City" := f r]> r) (rows df)) as R1
      by apply setitem_rows.
    assert (df_empty df1 = false) as He1.
    { unfold df_empty in He |- *. rewrite R1. cbn [columns df1 setitem].
      destruct (set_dtype "City" DObject (columns df)) eqn:Es;
        [now apply set_dtype_not_nil in Es | ].
      destruct (rows df); [ | reflexivity].
      now destruct (columns df). }
    split.
    + rewrite (normalize_city_eq py_str df1 He1) by apply has_column_setitem_eq.
      f_equal. apply frame_eq.
      * apply (set_dtype_twice "City" DObject (columns df)).
      * fold f. rewrite setitem_rows, R1, List.map_map.
        apply List.map_ext. intros r. rewrite insert_insert_eq. f_equal.
        unfold f at 1. rewrite cell_at_insert_eq. unfold f. cbn [astype_str].
        now rewrite title_strip_twice.
    + unfold ascii_cities in Ha |- *. rewrite R1.
      rewrite List.forallb_forall in Ha. apply List.forallb_forall.
      intros r' Hr'. apply List.in_map_iff in Hr' as (r & <- & Hr).
      rewrite cell_at_insert_eq. unfold f. cbn [astype_str].
      apply is_ascii_title_strip, Ha, Hr.
  - rewrite (normalize_city_skip py_str df G). intros [= <-].
    split; [now apply normalize_city_skip | exact Ha].
Qed.

Lemma normalize_city_idempotent_witness :
  exists df',
    normalize_city sample_str sample_station = Ok df'
    /\ normalize_city sample_str df' = Ok df'
    /\ ascii_cities sample_str df' = true.
Proof.
  eexists. split; [reflexivity | ].
  apply (normalize_city_idempotent sample_str sample_station); reflexivity.
Defined.

(* ------------------------------------------------------------------ *)
(** ** The per-hour means *)

Lemma insert_key_in x y l : In y (insert_key x l) <-> y = x \/ In y l.
Proof.
  induction l as [ | z l IH]; simpl; [intuition | ].
  destruct (Z.ltb_spec x z); [simpl; intuition | ].
  destruct (Z.eqb_spec x z); [subst; simpl; intuition | ].
  simpl. rewrite IH. intuition.
Qed.

Lemma insert_key_sorted x l :
  StronglySorted Z.lt l -> StronglySorted Z.lt (insert_key x l).
Proof.
  induction 1 as [ | z l Hs IH Hall]; simpl.
  - constructor; constructor.
  - destruct (Z.ltb_spec x z).
    + constructor; [now constructor | ].
      constructor; [assumption | ].
      eapply List.Forall_impl; [ | exact Hall]. intros; simpl in *; lia.
    + destruct (Z.eqb_spec x z); [now constructor | ].
      constructor; [exact IH | ].
      apply List.Forall_forall. intros y Hy. apply insert_key_in in Hy as [-> | Hy].
      * lia.
      * rewrite List.Forall_forall in Hall. now apply Hall.
Qed.

Lemma group_keys_sorted ks : StronglySorted Z.lt (group_keys ks).
Proof.
  unfold group_keys. induction (omap id ks) as [ | x l IH]; simpl;
    [constructor | now apply insert_key_sorted].
Qed.

Lemma group_keys_in ks h : In h (group_keys ks) <-> In (Some h) ks.
Proof.
  unfold group_keys. induction ks as [ | k ks IH]; [simpl; tauto | ].
  rewrite omap_id_cons. destruct k as [z | ]; simpl.
  - rewrite insert_key_in, IH. split; intros [H | H]; auto; left; congruence.
  - rewrite IH. split; [auto | intros [H | H]; [discriminate | exact H]].
Qed.

Lemma group_values_filter_key (key : gmap string cell -> option Z)
      (val : gmap string cell -> fval) h rs :
  group_values h (List.map key rs) (List.map val rs)
  = List.map val (List.filter (fun r => match key r with
                                        | Some z => (z =? h)%Z
                                        | None => false
                                        end) rs).
Proof.
  induction rs as [ | r rs IH]; [reflexivity | ].
  cbn [List.map group_values List.filter].
  destruct (key r) as [z | ]; [ | exact IH].
  destruct (z =? h)%Z; cbn [List.map]; now rewrite IH.
Qed.

Lemma hourly_avg_eq (df : frame) (t : dtype) :
  has_column df "City" = true -> has_column df "Hour" = true ->
  col_dtype df "PM2.5" = Some t -> is_numeric t = true ->
  hourly_avg df
  = Ok (List.map (fun h => (h, mean (List.map (reading "PM2.5")
                                       (hour_rows "Delhi" h (rows df)))))
          (group_keys (List.map (fun r => hour_key (cell_at "Hour" r))
                         (List.filter (fun r => cell_is "Delhi" (cell_at "City" r))
                            (rows df))))).
Proof.
  intros H1 H2 H3 H4. unfold hourly_avg, where_equal, getitem. rewrite H1.
  cbn [mbind result_bind].
  unfold groupby_mean, numeric_column, getitem, df_select.
  change (has_column {| columns := columns df; rows := ?r |} ?x) with (has_column df x).
  change (col_dtype {| columns := columns df; rows := ?r |} ?x) with (col_dtype df x).
  rewrite H2. unfold has_column at 1. rewrite H3. cbn [mbind result_bind rows].
  rewrite H4. cbn [mbind result_bind].
  rewrite !List.map_map, !select_map. f_equal.
  apply List.map_ext. intros h. f_equal. f_equal.
  unfold hour_rows, reading.
  apply (group_values_filter_key (fun r => hour_key (cell_at "Hour" r))
           (fun r => to_float (cell_at "PM2.5" r))).
Qed.

(** Lines 147-148.  The per-hour table lists, in ascending order and once
    each, exactly the hours that occur in a row of Delhi, and gives for
    each the mean of the PM2.5 readings of the Delhi rows of that hour. *)
Theorem hourly_avg_table (df : frame) (t : dtype) :
  has_column df "City" = true -> has_column df "Hour" = true ->
  col_dtype df "PM2.5" = Some t -> is_numeric t = true ->
  exists l,
    hourly_avg df = Ok l
    /\ StronglySorted Z.lt (List.map fst l)
    /\ (forall h, In h (List.map fst l)
                  <-> exists r, In r (rows df) /\ cell_at "City" r = Str "Delhi"
                                /\ cell_at "Hour" r = Int h)
    /\ Forall (fun p => snd p = mean (List.map (reading "PM2.5")
                                        (hour_rows "Delhi" (fst p) (rows df)))) l.
Proof.
  intros H1 H2 H3 H4. eexists. split; [apply (hourly_avg_eq df t H1 H2 H3 H4) | ].
  rewrite List.map_map. cbn [fst]. rewrite List.map_id.
  split; [apply group_keys_sorted | ]. split.
  - intros h. rewrite group_keys_in, List.in_map_iff. split.
    + intros (r & Hk & Hr). apply List.filter_In in Hr as [Hr Hd]. exists r.
      split; [exact Hr | ]. split.
      * destruct (cell_at "City" r) as [s | | | | | | ]; try discriminate Hd.
        simpl in Hd. apply String.eqb_eq in Hd. now subst.
      * destruct (cell_at "Hour" r) as [ | | | z | | | ]; try discriminate Hk.
        simpl in Hk. congruence.
    + intros (r & Hr & Hc & Hh). exists r. split; [now rewrite Hh | ].
      apply List.filter_In. split; [exact Hr | now rewrite Hc].
  - apply List.Forall_forall. intros p Hp.
    apply List.in_map_iff in Hp as (h & <- & _). reflexivity.
Qed.

Lemma hourly_avg_table_witness :
  exists df',
    derive_hour sample_parse sample_hourly = Ok df'
    /\ exists l,
        hourly_avg df' = Ok l
        /\ StronglySorted Z.lt (List.map fst l)
        /\ (forall h, In h (List.map fst l)
                      <-> exists r, In r (rows df') /\ cell_at "City" r = Str "Delhi"
                                    /\ cell_at "Hour" r = Int h)
        /\ Forall (fun p => snd p = mean (List.map (reading "PM2.5")
                                            (hour_rows "Delhi" (fst p) (rows df')))) l.
Proof.
  eexists. split; [vm_compute; reflexivity | ].
  eapply hourly_avg_table; reflexivity.
Defined.

(* ------------------------------------------------------------------ *)
(** ** Counts per category *)

(** Lines 69 and 115-118.  The count listed for a category is the number of
    rows whose PM2.5 reading falls into the bin of that category. *)
Theorem aqi_counts_per_category (df : frame) (t : dtype) :
  col_dtype df "PM2.5" = Some t -> is_numeric t = true ->
  exists df' counts,
    categorize df = Ok df'
    /\ aqi_counts df' = Ok counts
    /\ counts
       = List.map (fun k => (k, length (List.filter
                                          (fun r => String.eqb k
                                                      (get_aqi_category (reading "PM2.5" r)))
                                          (rows df))))
           category_order.
Proof.
  intros Hc Ht.
  pose (label := fun r : gmap string cell => get_aqi_category (reading "PM2.5" r)).
  pose (df' := setitem df "AQI_Category" DObject
                 (List.map (fun r => Str (label r)) (rows df))).
  assert (categorize df = Ok df') as Hcat.
  { unfold categorize. rewrite (numeric_column_ok df _ t Hc Ht).
    unfold df', label, reading. cbn [mbind result_bind]. now rewrite !List.map_map. }
  assert (getitem df' "AQI_Category" = Ok (List.map Str (List.map label (rows df))))
    as Hget.
  { unfold getitem. unfold df' at 1. rewrite has_column_setitem_eq.
    unfold df'. rewrite setitem_rows, !List.map_map. f_equal.
    apply List.map_ext. intros r. apply cell_at_insert_eq. }
  exists df', (reindex category_order (value_counts (List.map Str (List.map label (rows df))))).
  split; [exact Hcat | ].
  split; [unfold aqi_counts; now rewrite Hget | ].
  unfold reindex. apply List.map_ext. intros k. f_equal.
  rewrite value_counts_lookup. unfold count_label.
  symmetry. apply (length_filter_map label (String.eqb k)).
Qed.

Lemma aqi_counts_per_category_witness :
  exists df' counts,
    categorize sample_daily = Ok df'
    /\ aqi_counts df' = Ok counts
    /\ counts
       = List.map (fun k => (k, length (List.filter
                                          (fun r => String.eqb k
                                                      (get_aqi_category (reading "PM2.5" r)))
                                          (rows sample_daily))))
           category_order.
Proof. apply (aqi_counts_per_category sample_daily DFloat); reflexivity. Defined.

(* ------------------------------------------------------------------ *)
(** ** The station section of the report *)



(* ------------------------------------------------------------------ *)
(** ** The station table *)

Lemma station_values_filter_key (key : gmap string cell -> option string)
      (val : gmap string cell -> fval) k rs :
  station_values k (List.map key rs) (List.map val rs)
  = List.map val (List.filter (fun r => match key r with
                                        | Some z => String.eqb z k
                                        | None => false
                                        end) rs).
Proof.
  induction rs as [ | r rs IH]; [reflexivity | ].
  cbn [List.map station_values List.filter].
  destruct (key r) as [z | ]; [ | exact IH].
  destruct (String.eqb z k); cbn [List.map]; now rewrite IH.
Qed.

Lemma in_firstn {A} (x : A) n (l : list A) : In x (firstn n l) -> In x l.
Proof.
  revert l. induction n as [ | n IH]; intros l H; [destruct H | ].
  destruct l as [ | y l]; [destruct H | ].
  destruct H as [-> | H]; [now left | right; now apply IH].
Qed.

Lemma station_avg_eq (sort_values : list (string * fval) -> list (string * fval))
      (df : frame) (t : dtype) :
  has_column df "City" = true -> has_column df "Station" = true ->
  col_dtype df "PM2.5" = Some t -> is_numeric t = true ->
  station_avg sort_values df
  = Ok (firstn 12
          (sort_values
             (List.map (fun s => (s, mean (List.map (reading "PM2.5")
                                             (station_rows "Delhi" s (rows df)))))
                (remove_dups
                   (omap id (List.map (fun r => station_key (cell_at "Station" r))
                               (List.filter (fun r => cell_is "Delhi" (cell_at "City" r))
                                  (rows df)))))))).
Proof.
  intros H1 H2 H3 H4. unfold station_avg, where_equal, getitem. rewrite H1.
  cbn [mbind result_bind].
  unfold numeric_column, getitem, df_select.
  change (has_column {| columns := columns df; rows := ?r |} ?x) with (has_column df x).
  change (col_dtype {| columns := columns df; rows := ?r |} ?x) with (col_dtype df x).
  rewrite H2. cbn [mbind result_bind rows].
  unfold has_column. rewrite H3. cbn [mbind result_bind]. rewrite H4.
  cbn [mbind result_bind].
  rewrite !List.map_map, !select_map. f_equal. f_equal. f_equal.
  apply List.map_ext. intros s. f_equal. f_equal.
  unfold station_rows, reading.
  apply (station_values_filter_key (fun r => station_key (cell_at "Station" r))
           (fun r => to_float (cell_at "PM2.5" r))).
Qed.

Lemma in_firstn_or {A} (x : A) n (l : list A) :
  In x l -> In x (firstn n l) \/ length (firstn n l) = n.
Proof.
  intros H. destruct (le_lt_dec (length l) n) as [Hle | Hlt].
  - left. now rewrite List.firstn_all2.
  - right. apply List.firstn_length_le. lia.
Qed.

(** Lines 187-188.  For a station frame whose station identifiers are text
    or missing, and a sort that only reorders: the station table has at
    most twelve entries and no station twice; every entry is a station of a
    Delhi row with the mean of the PM2.5 readings of the Delhi rows of that
    station; and a station of a Delhi row is left out only when the table
    is full. *)
Theorem station_avg_table
        (sort_values : list (string * fval) -> list (string * fval))
        (df : frame) (t : dtype) :
  (forall l, Permutation (sort_values l) l) ->
  has_column df "City" = true -> has_column df "Station" = true ->
  col_dtype df "PM2.5" = Some t -> is_numeric t = true ->
  text_stations df = true ->
  exists l,
    station_avg sort_values df = Ok l
    /\ (length l <= 12)%nat
    /\ List.NoDup (List.map fst l)
    /\ Forall (fun p =>
                 (exists r, In r (rows df) /\ cell_at "City" r = Str "Delhi"
                            /\ cell_at "Station" r = Str (fst p))
                 /\ snd p = mean (List.map (reading "PM2.5")
                                    (station_rows "Delhi" (fst p) (rows df)))) l
    /\ (forall r s, In r (rows df) -> cell_at "City" r = Str "Delhi" ->
                    cell_at "Station" r = Str s ->
                    In s (List.map fst l) \/ length l = 12%nat).
Proof.
  intros Hperm H1 H2 H3 H4 _.
  eexists. split; [apply (station_avg_eq sort_values df t H1 H2 H3 H4) | ].
  set (D := List.filter (fun r => cell_is "Delhi" (cell_at "City" r)) (rows df)).
  set (keys := remove_dups (omap id (List.map (fun r => station_key (cell_at "Station" r)) D))).
  set (means := List.map (fun s => (s, mean (List.map (reading "PM2.5")
                                              (station_rows "Delhi" s (rows df))))) keys).
  assert (List.NoDup (List.map fst (sort_values means))) as Hnd.
  { apply (Permutation_NoDup (l := List.map fst means)).
    - apply Permutation_map, Permutation_sym, Hperm.
    - unfold means. rewrite List.map_map. cbn [fst]. rewrite List.map_id.
      apply NoDup_ListNoDup, NoDup_remove_dups. }
  split; [apply List.firstn_le_length | ].
  split; [ | split].
  - rewrite <- firstn_map.
    apply NoDup_ListNoDup.
    apply (sublist_NoDup _ (List.map fst (sort_values means)));
      [now apply NoDup_ListNoDup | apply sublist_take].
  - apply List.Forall_forall. intros p Hp.
    apply in_firstn in Hp.
    apply (Permutation_in _ (Hperm means)) in Hp.
    unfold means in Hp. apply List.in_map_iff in Hp as (s & <- & Hs).
    cbn [fst snd]. split; [ | reflexivity].
    unfold keys in Hs.
    rewrite <- list_elem_of_In, elem_of_remove_dups, list_elem_of_In in Hs.
    assert (In (Some s) (List.map (fun r => station_key (cell_at "Station" r)) D)) as Hin.
    { revert Hs. generalize (List.map (fun r => station_key (cell_at "Station" r)) D).
      intros ks. induction ks as [ | k ks IH]; [intros [] | ].
      rewrite omap_id_cons. destruct k as [z | ]; intros H.
      - apply List.in_inv in H as [-> | H]; [now left | right; now apply IH].
      - right. now apply IH. }
    apply List.in_map_iff in Hin as (r & Hk & Hr).
    unfold D in Hr. apply List.filter_In in Hr as [Hr Hd].
    exists r. split; [exact Hr | ]. split.
    + destruct (cell_at "City" r) as [c | | | | | | ]; try discriminate Hd.
      simpl in Hd. apply String.eqb_eq in Hd. now subst.
    + destruct (cell_at "Station" r) as [c | | | | | | ]; try discriminate Hk.
      simpl in Hk. congruence.
  - intros r s Hr Hc Hs.
    assert (In r D) as HD.
    { unfold D. apply List.filter_In. split; [exact Hr | ]. now rewrite Hc. }
    assert (In s keys) as Hk.
    { unfold keys.
      rewrite <- list_elem_of_In, elem_of_remove_dups, list_elem_of_In.
      clear - HD Hs. induction D as [ | r0 D IH]; [destruct HD | ].
      cbn [List.map]. rewrite omap_id_cons. destruct HD as [-> | HD].
      - rewrite Hs. cbn [station_key]. now left.
      - destruct (station_key (cell_at "Station" r0)); [right | ]; now apply IH. }
    assert (In (s, mean (List.map (reading "PM2.5") (station_rows "Delhi" s (rows df))))
               (sort_values means)) as Hm.
    { apply (Permutation_in _ (Permutation_sym (Hperm means))).
      unfold means. apply List.in_map_iff. now exists s. }
    destruct (in_firstn_or _ 12 _ Hm) as [Hin | Hlen]; [left | now right].
    apply List.in_map_iff. eexists. split; [ | exact Hin]. reflexivity.
Qed.

Lemma station_avg_table_witness :
  exists l,
    station_avg sample_sort sample_delhi_stations = Ok l
    /\ (length l <= 12)%nat
    /\ List.NoDup (List.map fst l)
    /\ Forall (fun p =>
                 (exists r, In r (rows sample_delhi_stations)
                            /\ cell_at "City" r = Str "Delhi"
                            /\ cell_at "Station" r = Str (fst p))
                 /\ snd p = mean (List.map (reading "PM2.5")
                                    (station_rows "Delhi" (fst p)
                                       (rows sample_delhi_stations)))) l
    /\ (forall r s, In r (rows sample_delhi_stations) ->
                    cell_at "City" r = Str "Delhi" ->
                    cell_at "Station" r = Str s ->
                    In s (List.map fst l) \/ length l = 12%nat).
Proof.
  apply (station_avg_table sample_sort sample_delhi_stations DFloat);
    [intros l; apply Permutation_refl
    | reflexivity | reflexivity | reflexivity | reflexivity | reflexivity].
Defined.
